(** * The travel tool servers: a shallow embedding of the tool handlers

    The repository registers a handful of travel tools with an MCP server
    object and implements each one as a thin adapter: take the arguments,
    call one provider function (or two), render the answer as text.  Three
    entry points exist: [mcp_http_server.py] (eight tools, FastMCP),
    [mcp_http_server_minimal.py] (five tools, FastMCP) and [mcp_server.py]
    (four tools over standard input/output).  Beside the tools the HTTP
    entry points hold their configuration, a bearer-token check and the
    [Fetch] helper; keep_alive.py pings the deployed server.

    The development has six parts:
    - [Py]: the fragment of Python's values and built-in operations that the
      handlers use;
    - the adapter monad: provider calls, exceptions, the tool registry, the
      configuration;
    - one module per entry point, each handler translated statement by
      statement, and one for keep_alive.py;
    - dispatch: binding a request's arguments to a handler's parameters,
      and a reference runtime to compute with;
    - the vocabulary of the properties;
    - the properties of the adapters, with worked examples, followed by
      further properties of the code around them. *)

From Stdlib Require Import String Ascii List ZArith Bool Lia Floats DecimalString.
Import ListNotations.
Open Scope string_scope.

(* ===================================================================== *)
(** * Part 1: Python values and built-ins                                 *)
(* ===================================================================== *)

Module Py.

(** The values that travel through the handlers: request arguments and the
    JSON-shaped data the providers return.  A [str] is held as its UTF-8
    bytes; a [dict] keeps its items in insertion order and is read by its
    first matching key. *)
#[local] Unset Elimination Schemes.
Inductive value : Type :=
| VNone
| VBool (b : bool)
| VInt (n : Z)
| VFloat (x : float)
| VStr (s : string)
| VList (xs : list value)
| VDict (items : list (string * value)).
#[local] Set Elimination Schemes.

(** [type(v).__name__] *)
Definition type_name (v : value) : string :=
  match v with
  | VNone => "NoneType"
  | VBool _ => "bool"
  | VInt _ => "int"
  | VFloat _ => "float"
  | VStr _ => "str"
  | VList _ => "list"
  | VDict _ => "dict"
  end.

(** [bool(v)]: what [if v:] and [not v] test. *)
Definition truthy (v : value) : bool :=
  match v with
  | VNone => false
  | VBool b => b
  | VInt n => negb (n =? 0)%Z
  | VFloat x => negb (PrimFloat.eqb x 0%float)
  | VStr s => negb (String.eqb s "")
  | VList xs => match xs with [] => false | _ => true end
  | VDict items => match items with [] => false | _ => true end
  end.

(** What goes wrong when a built-in operation meets a value it does not
    support.  Every one of these is raised as a subclass of [Exception]
    ([AttributeError], [TypeError], [KeyError], [ValueError]). *)
Inductive fault : Type :=
| NoAttribute (v : value) (attr : string)      (* v.attr on a type without it *)
| BadSubscript (v : value) (key : string)      (* v[key], v not a dict *)
| KeyMissing (key : string)                    (* d[key], key absent *)
| BadSlice (v : value) (stop : value)          (* v[:stop] *)
| NotIterable (v : value)                      (* for x in v *)
| NotJoinable (v : value)                      (* sep.join(v), v not iterable *)
| JoinItem (position : nat) (v : value)        (* sep.join: item is not a str *)
| NoLen (v : value)                            (* len(v) *)
| BadCompare (op : string) (v : value) (bound : Z)   (* v > bound, v < bound *)
| BadFormat (v : value) (spec : string)        (* format(v, spec) *)
| BadConcat (v : value) (suffix : string)      (* v + suffix, v not a str *)
| UnexpectedKeyword (fn kw : string)           (* fn(kw=...) *)
| MissingArguments (fn : string) (names : list string).

(** Where an exception sits in Python's class hierarchy: under [Exception],
    or only under [BaseException] (as [asyncio.CancelledError] and
    [KeyboardInterrupt] do). *)
Inductive exc_base : Type := UnderException | UnderBaseException.

Inductive exn : Type :=
| McpError (code : Z) (message : string)       (* McpError(ErrorData(code, message)) *)
| Fault (f : fault)
| Thrown (base : exc_base) (text : string)     (* raised by a provider; text = str(e) *)
| UnknownTool (name : string).                 (* the server has no tool of that name *)

(** [isinstance(e, Exception)]: what [except Exception] catches. *)
Definition is_Exception (e : exn) : bool :=
  match e with
  | Thrown UnderBaseException _ => false
  | _ => true
  end.

(** The built-ins whose results are produced by the Python runtime and its
    standard library rather than by this repository.  The handlers are
    verified for every runtime; [Reference] below is one to compute with. *)
Class Runtime : Type := {
  str_lower : string -> string;               (* str.lower *)
  str_title : string -> string;               (* str.title *)
  py_repr : value -> string;                  (* repr *)
  format_2f : value -> option string;         (* format(v, ".2f") *)
  json_dumps : value -> string;               (* json.dumps *)
  fault_message : fault -> string             (* str(e) of a built-in's error *)
}.

(** ** Text *)

Definition nl : string := String "010"%char EmptyString.

Definition Z_to_string (n : Z) : string := NilZero.string_of_int (Z.to_int n).

(** A continuation byte of a UTF-8 sequence: [10xxxxxx]. *)
Definition is_continuation (c : ascii) : bool :=
  let n := nat_of_ascii c in (128 <=? n)%nat && (n <? 192)%nat.

Definition starts_continued (s : string) : bool :=
  match s with
  | String c _ => is_continuation c
  | EmptyString => false
  end.

(** The characters (code points) of a [str], each as its own [str]. *)
Fixpoint characters (s : string) : list string :=
  match s with
  | EmptyString => []
  | String c rest =>
      match characters rest with
      | first :: others =>
          if starts_continued rest then String c first :: others
          else String c EmptyString :: first :: others
      | [] => [String c EmptyString]
      end
  end.

(** [needle in haystack] *)
Fixpoint contains (needle haystack : string) : bool :=
  String.prefix needle haystack ||
  match haystack with
  | EmptyString => false
  | String _ rest => contains needle rest
  end.

(** [xs[:stop]] for an integer [stop]; a negative [stop] counts from the
    end. *)
Definition slice_to {A : Type} (stop : Z) (xs : list A) : list A :=
  if (0 <=? stop)%Z then firstn (Z.to_nat stop) xs
  else firstn (length xs - Z.to_nat (- stop)) xs.

(** [enumerate(xs, start)] *)
Fixpoint enumerate {A : Type} (start : Z) (xs : list A) : list (Z * A) :=
  match xs with
  | [] => []
  | x :: rest => (start, x) :: enumerate (start + 1) rest
  end.

(** ** Pure, fallible evaluation *)

Definition Res (A : Type) : Type := sum exn A.

Definition ok {A : Type} (a : A) : Res A := inr a.
Definition fail {A : Type} (f : fault) : Res A := inl (Fault f).

Definition res_bind {A B : Type} (r : Res A) (k : A -> Res B) : Res B :=
  match r with
  | inl e => inl e
  | inr a => k a
  end.

Notation "x <~ r ;; k" := (res_bind r (fun x => k))
  (at level 61, r at next level, right associativity).

(** A [for] loop that updates one variable. *)
Fixpoint for_each {A S : Type} (xs : list A) (body : S -> A -> Res S) (s : S) : Res S :=
  match xs with
  | [] => ok s
  | x :: rest => s' <~ body s x ;; for_each rest body s'
  end.

(** [any(test(x) for x in xs)]: stops at the first hit. *)
Fixpoint any_of {A : Type} (xs : list A) (test : A -> Res bool) : Res bool :=
  match xs with
  | [] => ok false
  | x :: rest => b <~ test x ;; if b then ok true else any_of rest test
  end.

(** ** Operations on values *)

Fixpoint lookup (key : string) (items : list (string * value)) : option value :=
  match items with
  | [] => None
  | (k, v) :: rest => if String.eqb k key then Some v else lookup key rest
  end.

(** [d.get(key, default)] *)
Definition get (d : value) (key : string) (default : value) : Res value :=
  match d with
  | VDict items =>
      ok match lookup key items with Some v => v | None => default end
  | _ => fail (NoAttribute d "get")
  end.

(** [d[key]] *)
Definition subscript (d : value) (key : string) : Res value :=
  match d with
  | VDict items =>
      match lookup key items with
      | Some v => ok v
      | None => fail (KeyMissing key)
      end
  | _ => fail (BadSubscript d key)
  end.

(** [v[:stop]]: lists and strings can be sliced; [stop] is an integer (a
    [bool] counts as one) or [None] for no bound. *)
Definition slice (v : value) (stop : value) : Res value :=
  let cut {A : Type} (xs : list A) : option (list A) :=
    match stop with
    | VNone => Some xs
    | VInt n => Some (slice_to n xs)
    | VBool b => Some (slice_to (if b then 1 else 0) xs)
    | _ => None
    end in
  match v with
  | VList xs =>
      match cut xs with
      | Some ys => ok (VList ys)
      | None => fail (BadSlice v stop)
      end
  | VStr s =>
      match cut (characters s) with
      | Some cs => ok (VStr (String.concat "" cs))
      | None => fail (BadSlice v stop)
      end
  | _ => fail (BadSlice v stop)
  end.

(** The items a [for] loop over [v] visits. *)
Definition iterate (v : value) : Res (list value) :=
  match v with
  | VList xs => ok xs
  | VStr s => ok (map VStr (characters s))
  | VDict items => ok (map (fun kv => VStr (fst kv)) items)
  | _ => fail (NotIterable v)
  end.

(** [len(v)] *)
Definition len (v : value) : Res Z :=
  match v with
  | VList xs => ok (Z.of_nat (length xs))
  | VStr s => ok (Z.of_nat (length (characters s)))
  | VDict items => ok (Z.of_nat (length items))
  | _ => fail (NoLen v)
  end.

Fixpoint strings_from (position : nat) (xs : list value) : Res (list string) :=
  match xs with
  | [] => ok []
  | VStr s :: rest => ss <~ strings_from (S position) rest ;; ok (s :: ss)
  | v :: _ => fail (JoinItem position v)
  end.

(** [sep.join(v)] *)
Definition join (sep : string) (v : value) : Res string :=
  match iterate v with
  | inr xs => ss <~ strings_from 0 xs ;; ok (String.concat sep ss)
  | inl _ => fail (NotJoinable v)
  end.

(** [v + suffix] for a string literal [suffix] *)
Definition add_suffix (v : value) (suffix : string) : Res value :=
  match v with
  | VStr s => ok (VStr (s ++ suffix))
  | _ => fail (BadConcat v suffix)
  end.

(** [v == literal] for a string literal *)
Definition equals_str (v : value) (literal : string) : bool :=
  match v with
  | VStr s => String.eqb s literal
  | _ => false
  end.

Definition float_of_bound (n : Z) : float :=
  if (0 <=? n)%Z then PrimFloat.of_uint63 (Uint63.of_Z n)
  else PrimFloat.opp (PrimFloat.of_uint63 (Uint63.of_Z (- n))).

(** [v > bound] and [v < bound] for a small integer literal [bound]. *)
Definition greater (v : value) (bound : Z) : Res bool :=
  match v with
  | VInt n => ok (bound <? n)%Z
  | VBool b => ok (bound <? (if b then 1 else 0))%Z
  | VFloat x => ok (PrimFloat.ltb (float_of_bound bound) x)
  | _ => fail (BadCompare ">" v bound)
  end.

Definition less (v : value) (bound : Z) : Res bool :=
  match v with
  | VInt n => ok (n <? bound)%Z
  | VBool b => ok ((if b then 1 else 0) <? bound)%Z
  | VFloat x => ok (PrimFloat.ltb x (float_of_bound bound))
  | _ => fail (BadCompare "<" v bound)
  end.

Section WithRuntime.
Context {R : Runtime}.

(** [str(v)], which is also what an f-string field [{v}] renders. *)
Definition str (v : value) : string :=
  match v with
  | VStr s => s
  | VNone => "None"
  | VBool true => "True"
  | VBool false => "False"
  | VInt n => Z_to_string n
  | VFloat _ | VList _ | VDict _ => py_repr v
  end.

(** [str(e)] *)
Definition exn_str (e : exn) : string :=
  match e with
  | McpError _ message => message
  | Fault f => fault_message f
  | Thrown _ text => text
  | UnknownTool name => name
  end.

(** [v.lower()] and [v.title()]: only a [str] has them. *)
Definition lower (v : value) : Res string :=
  match v with
  | VStr s => ok (str_lower s)
  | _ => fail (NoAttribute v "lower")
  end.

Definition title (v : value) : Res string :=
  match v with
  | VStr s => ok (str_title s)
  | _ => fail (NoAttribute v "title")
  end.

(** The f-string field [{v:.2f}] *)
Definition fixed2 (v : value) : Res string :=
  match format_2f v with
  | Some s => ok s
  | None => fail (BadFormat v ".2f")
  end.

End WithRuntime.

End Py.

Import Py.

(* ===================================================================== *)
(** * Part 2: the adapter monad                                           *)
(* ===================================================================== *)

(** The provider functions imported from [services/]. *)
Inductive Collaborator : Type :=
| generate_itinerary
| search_flights
| search_hotels
| get_forecast
| search_places
| search_events
| search_restaurants
| check_visa_requirements
| get_safety_advisories.

(** One outbound call: the function, its positional arguments and its
    keyword arguments, in the order written at the call site. *)
Record ProviderCall : Type := {
  callee : Collaborator;
  positional : list value;
  keywords : list (string * value)
}.

(** What surrounds a server process: the providers (each call is answered
    with a value or with an exception, the same call always the same way)
    and the process environment. *)
Record Env : Type := {
  respond : ProviderCall -> Res value;
  MY_NUMBER : string
}.

(** The seventeen functions the three entry points register as tools. *)
Inductive handler : Type :=
| Http_validate
| Http_plan_trip
| Http_get_weather
| Http_search_hotel_options
| Http_search_flight_options
| Http_discover_places
| Http_find_restaurants
| Http_check_travel_requirements
| Minimal_health_check
| Minimal_get_weather
| Minimal_discover_places
| Minimal_find_restaurants
| Minimal_check_travel_requirements
| Stdio_tool_get_weather
| Stdio_tool_discover_places
| Stdio_tool_find_restaurants
| Stdio_tool_check_travel_requirements.

(** A parameter as the tool's schema declares it. *)
Inductive sem_type : Type :=
| TStr
| TInt
| TFloat
| TOptional (t : sem_type)
| TListOf (t : sem_type).

Record Param : Type := {
  p_name : string;
  p_type : sem_type;
  p_default : option value          (* the default value, when one is declared *)
}.

(** A registered tool.  [t_var_keywords] says that the function takes
    [**kwargs] and reads its arguments from that dict itself. *)
Record ToolEntry : Type := {
  t_name : string;
  t_params : list Param;
  t_required : list string;
  t_var_keywords : bool;
  t_handler : handler
}.

Definition Registry : Type := list ToolEntry.

(** The state of a server process: its tool registry (the module-level
    [mcp] or [server] object) and the provider calls made so far. *)
Record World : Type := {
  registry : Registry;
  calls : list ProviderCall
}.

Definition Prog (A : Type) : Type := Env -> World -> Res A * World.

Definition ret {A : Type} (a : A) : Prog A := fun _ w => (inr a, w).

Definition raise {A : Type} (e : exn) : Prog A := fun _ w => (inl e, w).

Definition bind {A B : Type} (p : Prog A) (k : A -> Prog B) : Prog B :=
  fun env w =>
    match p env w with
    | (inr a, w') => k a env w'
    | (inl e, w') => (inl e, w')
    end.

Notation "x <- p ;; k" := (bind p (fun x => k))
  (at level 61, p at next level, right associativity).

(** A pure computation inside a handler. *)
Definition attempt {A : Type} (r : Res A) : Prog A := fun _ w => (r, w).

(** [await f(...)]: one call of a provider function *)
Definition await (f : Collaborator) (positional : list value)
    (keywords : list (string * value)) : Prog value :=
  fun env w =>
    let c := {| callee := f; positional := positional; keywords := keywords |} in
    (respond env c, {| registry := registry w; calls := (calls w ++ [c])%list |}).

(** [try: body / except Exception as e: on_error(e)] *)
Definition try_except {A : Type} (body : Prog A) (on_error : exn -> Prog A) : Prog A :=
  fun env w =>
    match body env w with
    | (inl e, w') => if is_Exception e then on_error e env w' else (inl e, w')
    | done => done
    end.

(** The decorator [@mcp.tool] / [@server.tool]: the tool joins the
    registry.  Nothing about the tool's function is inspected. *)
Definition add_tool (t : ToolEntry) : Prog unit :=
  fun _ w => (inr tt, {| registry := (registry w ++ [t])%list; calls := calls w |}).

(** JSON-RPC error codes of [mcp.types]. *)
Definition INVALID_REQUEST : Z := (-32600)%Z.
Definition INVALID_PARAMS : Z := (-32602)%Z.
Definition INTERNAL_ERROR : Z := (-32603)%Z.

(** ** The result of an invocation, as the caller sees it *)

Inductive ErrorKind : Type :=
| InvalidRequest
| InvalidParams
| InternalError
| OtherError (code : Z).

Definition kind_of_code (code : Z) : ErrorKind :=
  if (code =? INVALID_REQUEST)%Z then InvalidRequest
  else if (code =? INVALID_PARAMS)%Z then InvalidParams
  else if (code =? INTERNAL_ERROR)%Z then InternalError
  else OtherError code.

(** [TextContent(type=..., text=...)] *)
Record TextContent : Type := { type : string; text : string }.

Inductive payload : Type :=
| Formatted (response : string)                (* a handler that returns str *)
| Contents (items : list TextContent).         (* a handler that returns content items *)

Inductive ToolResult : Type :=
| Success (p : payload)
| Failure (kind : ErrorKind) (message : string).

(** An invocation ends in a result envelope, or with an exception that the
    handler neither caught nor wrapped. *)
Inductive Outcome : Type :=
| Completed (r : ToolResult)
| Uncaught (e : exn).

Definition outcome_of (r : Res payload) : Outcome :=
  match r with
  | inr p => Completed (Success p)
  | inl (McpError code message) => Completed (Failure (kind_of_code code) message)
  | inl e => Uncaught e
  end.

(** A tool registered with FastMCP takes its schema from the function's
    signature: a parameter without a default value is required. *)
Definition required_of (params : list Param) : list string :=
  map p_name (filter (fun p => match p_default p with None => true | Some _ => false end) params).

Definition fastmcp_tool (name : string) (params : list Param) (h : handler) : ToolEntry :=
  {| t_name := name; t_params := params; t_required := required_of params;
     t_var_keywords := false; t_handler := h |}.

Definition param (name : string) (t : sem_type) : Param :=
  {| p_name := name; p_type := t; p_default := None |}.
Definition param_default (name : string) (t : sem_type) (default : value) : Param :=
  {| p_name := name; p_type := t; p_default := Some default |}.

(** [os.environ.get("MY_NUMBER")], read once when the module is loaded. *)
Definition my_number : Prog string := fun env w => (inr (MY_NUMBER env), w).

(** The [except] clause every FastMCP handler ends with:
    [raise McpError(ErrorData(code=INTERNAL_ERROR, message=f"<label>{str(e)}"))]. *)
Definition internal_error {R : Runtime} {A : Type} (label : string) (e : exn) : Prog A :=
  raise (McpError INTERNAL_ERROR (label ++ exn_str e)).

(** ** Configuration *)

(** [os.environ], as the two [load_dotenv] calls leave it. *)
Definition Environ : Type := list (string * string).

(** [os.environ.get(key)] *)
Fixpoint environ_get (environ : Environ) (key : string) : option string :=
  match environ with
  | [] => None
  | (k, v) :: rest => if String.eqb k key then Some v else environ_get rest key
  end.

(** [a or b], for two values that are a [str] or [None]. *)
Definition or_else (a b : option string) : option string :=
  match a with
  | Some s => if String.eqb s "" then b else a
  | None => b
  end.

(** How the module-level configuration of [mcp_http_server.py] and of
    [mcp_http_server_minimal.py] ends: with [TOKEN] and [MY_NUMBER] set, or
    with the [AssertionError] of one of the two [assert] statements. *)
Inductive Config : Type :=
| Configured (token number : string)
| AssertionError (message : string).

Definition config (environ : Environ) : Config :=
  let TOKEN := or_else (environ_get environ "AUTH_TOKEN")
                 (environ_get environ "MCP_BEARER_TOKEN") in
  let MY_NUMBER := environ_get environ "MY_NUMBER" in
  match TOKEN with
  | None => AssertionError "Please set AUTH_TOKEN or MCP_BEARER_TOKEN in your .env file"
  | Some token =>
      match MY_NUMBER with
      | None => AssertionError "Please set MY_NUMBER in your .env file"
      | Some number => Configured token number
      end
  end.

(* ===================================================================== *)
(** * Part 3: the three entry points                                      *)
(* ===================================================================== *)

(** ** [mcp_http_server.py] *)

Module Http.

(** The pictographs of the response texts, byte for byte as the source
    file holds them. *)
Definition g_globe : string := "ğŸŒ".
Definition g_arrow : string := "â†’".
Definition g_calendar : string := "ğŸ“…".
Definition g_people : string := "ğŸ‘¥".
Definition g_money : string := "ğŸ’°".
Definition g_plane : string := "âœˆï¸".
Definition g_hotel : string := "ğŸ¨".
Definition g_star : string := "â­".
Definition g_clipboard : string := "ğŸ“‹".
Definition g_bullet : string := "â€¢".
Definition g_plate : string := "ğŸ½ï¸".
Definition g_masks : string := "ğŸ­".
Definition g_info : string := "â„¹ï¸".
Definition g_link : string := "ğŸ”—".
Definition g_sparkles : string := "âœ¨".
Definition g_cross : string := "âŒ".
Definition g_sun_cloud : string := "ğŸŒ¤ï¸".
Definition g_degree : string := "Â°".
Definition g_rain_cloud : string := "ğŸŒ§ï¸".
Definition g_snowflake : string := "â„ï¸".
Definition g_sun : string := "â˜€ï¸".
Definition g_pin : string := "ğŸ“".
Definition g_target : string := "ğŸ¯".
Definition g_ticket : string := "ğŸ«".
Definition g_clock : string := "ğŸ•".
Definition g_magnifier : string := "ğŸ”".
Definition g_bowl : string := "ğŸœ".
Definition g_salad : string := "ğŸ¥—".
Definition g_passport : string := "ğŸ›‚".
Definition g_check : string := "âœ…".
Definition g_stopwatch : string := "â±ï¸".
Definition g_warning : string := "âš ï¸".
Definition g_siren : string := "ğŸš¨".

(** *** [SimpleBearerAuthProvider] *)

(** [load_access_token]: [self_token] is [self.token]; the result is
    [None] or the keyword arguments of the [AccessToken] that is built. *)
Definition load_access_token (self_token token : string) : option (list (string * value)) :=
  if String.eqb token self_token then
    Some [("token", VStr token);
          ("client_id", VStr "puch-client");
          ("scopes", VList [VStr "*"]);
          ("expires_at", VNone)]
  else None.

(** *** [Fetch] *)

Module Fetch.

Definition USER_AGENT : string := "Puch/1.0 (Autonomous)".

(** What is read of an [httpx.Response]; the headers stand under their
    lower-case names. *)
Record Response : Type := {
  status_code : Z;
  text : string;
  headers : list (string * string)
}.

(** One [client.get]: the URL and the keyword arguments given; [timeout]
    is [None] where the call leaves it to the client. *)
Record Request : Type := {
  url : string;
  request_headers : list (string * string);
  follow_redirects : bool;
  timeout : option Z
}.

(** What a request comes to: a response, an [httpx.HTTPError] (with its
    [repr]) or another exception. *)
Inductive Reply : Type :=
| Answered (response : Response)
| HTTPError (e : exn) (repr : string)
| Raised (e : exn).

(** The network and the libraries the class relies on. *)
Class Web : Type := {
  client_get : Request -> Reply;
  (* readabilipy.simple_json.simple_json_from_html_string(html, use_readability=True) *)
  simple_json_from_html_string : string -> Res value;
  (* markdownify.markdownify(content, heading_style=markdownify.ATX) *)
  markdownify : value -> Res string;
  (* the [href] of every a in
     BeautifulSoup(text, "html.parser").find_all("a", class_="result__a", href=True) *)
  result_links : string -> Res (list string)
}.

(** [s.replace(old, new)] for two characters *)
Fixpoint replace (old new : ascii) (s : string) : string :=
  match s with
  | EmptyString => EmptyString
  | String c rest => String (if Ascii.eqb c old then new else c) (replace old new rest)
  end.

(** [headers.get(name, default)] *)
Fixpoint header (headers : list (string * string)) (name default : string) : string :=
  match headers with
  | [] => default
  | (k, v) :: rest => if String.eqb k name then v else header rest name default
  end.

Section WithWeb.
Context {W : Web}.

Definition extract_content_from_html (html : string) : Res string :=
  ret <~ simple_json_from_html_string html ;;
  if negb (truthy ret) then ok "<error>Page failed to be simplified from HTML</error>"
  else
    content <~ get ret "content" VNone ;;
    if negb (truthy content) then ok "<error>Page failed to be simplified from HTML</error>"
    else
      content <~ subscript ret "content" ;;
      markdownify content.

Definition fetch_url (url user_agent : string) (force_raw : bool) : Res (string * string) :=
  match client_get {| url := url; request_headers := [("User-Agent", user_agent)];
                      follow_redirects := true; timeout := Some 30%Z |} with
  | HTTPError e repr =>
      inl (McpError INTERNAL_ERROR ("Failed to fetch " ++ url ++ ": " ++ repr))
  | Raised e => inl e
  | Answered response =>
      if (400 <=? status_code response)%Z then
        inl (McpError INTERNAL_ERROR
               ("Failed to fetch " ++ url ++ " - status code "
                  ++ Z_to_string (status_code response)))
      else
        let page_raw := text response in
        let content_type := header (headers response) "content-type" "" in
        let is_page_html := contains "text/html" content_type in
        if is_page_html && negb force_raw then
          content <~ extract_content_from_html page_raw ;;
          ok (content, "")
        else
          ok (page_raw,
              "Content type " ++ content_type
                ++ " cannot be simplified to markdown, but here is the raw content:" ++ nl)
  end.

Definition ddg_url (query : string) : string :=
  "https://html.duckduckgo.com/html/?q=" ++ replace " " "+" query.

(** The loop over the result anchors: a link is kept when "http" occurs
    in it, and the loop is left as soon as [num_results] links are kept. *)
Fixpoint gather (num_results : Z) (hrefs : list string) (links : list string) : list string :=
  match hrefs with
  | [] => links
  | href :: rest =>
      let links := if contains "http" href then (links ++ [href])%list else links in
      if (num_results <=? Z.of_nat (length links))%Z then links
      else gather num_results rest links
  end.

Definition google_search_links (query : string) (num_results : Z) : Res (list string) :=
  match client_get {| url := ddg_url query; request_headers := [("User-Agent", USER_AGENT)];
                      follow_redirects := false; timeout := None |} with
  | HTTPError e _ | Raised e => inl e
  | Answered resp =>
      if negb (status_code resp =? 200)%Z then ok ["<error>Failed to perform search.</error>"]
      else
        hrefs <~ result_links (text resp) ;;
        let links := gather num_results hrefs [] in
        ok match links with
           | [] => ["<error>No results found.</error>"]
           | _ => links
           end
  end.

End WithWeb.

End Fetch.

(** *** The tools *)

Section Handlers.
Context {R : Runtime}.

(** *** [validate] *)

Definition validate : Prog string := my_number.

(** *** [plan_trip] *)

Definition flight_option (response : string) (item : Z * value) : Res string :=
  let (i, flight) := item in
  airline <~ get flight "airline" (VStr "Unknown") ;;
  price <~ get flight "price" (VStr "N/A") ;;
  departure_time <~ get flight "departure_time" (VStr "TBD") ;;
  ok (response ++ Z_to_string i ++ ". " ++ str airline ++ " - $" ++ str price
        ++ " - " ++ str departure_time ++ nl).

Definition hotel_option (response : string) (item : Z * value) : Res string :=
  let (i, hotel) := item in
  name <~ get hotel "name" (VStr "Unknown") ;;
  price_per_night <~ get hotel "price_per_night" (VStr "N/A") ;;
  rating <~ get hotel "rating" (VStr "N/A") ;;
  ok (response ++ Z_to_string i ++ ". " ++ str name ++ " - $" ++ str price_per_night
        ++ "/night - " ++ g_star ++ str rating ++ nl).

Definition itinerary_day (response : string) (day : value) : Res string :=
  date <~ get day "date" (VStr "TBD") ;;
  let response := response ++ "**" ++ str date ++ ":**" ++ nl in
  activities <~ get day "activities" (VList []) ;;
  activities <~ slice activities (VInt 3) ;;
  activities <~ iterate activities ;;
  response <~ for_each activities
    (fun response activity => ok (response ++ "  " ++ g_bullet ++ " " ++ str activity ++ nl))
    response ;;
  ok (response ++ nl).

Definition restaurant_line (response : string) (restaurant : value) : Res string :=
  name <~ get restaurant "name" (VStr "Unknown") ;;
  cuisine <~ get restaurant "cuisine" (VStr "Various") ;;
  price_level <~ get restaurant "price_level" (VStr "$") ;;
  ok (response ++ g_bullet ++ " " ++ str name ++ " - " ++ str cuisine ++ " - "
        ++ str price_level ++ nl).

Definition event_line (response : string) (event : value) : Res string :=
  name <~ get event "name" (VStr "Unknown Event") ;;
  start_time <~ get event "start_time" (VStr "TBD") ;;
  ok (response ++ g_bullet ++ " " ++ str name ++ " - " ++ str start_time ++ nl).

(** What [plan_trip] makes of the provider's answer. *)
Definition trip_plan (origin destination start_date end_date adults result : value)
    : Res string :=
  trip_data <~ get result "trip_data" (VDict []) ;;
  let response := g_globe ++ " **Complete Trip Plan: " ++ str origin ++ " " ++ g_arrow
                    ++ " " ++ str destination ++ "**" ++ nl ++ nl in
  let response := response ++ g_calendar ++ " **Dates**: " ++ str start_date ++ " to "
                    ++ str end_date ++ nl in
  let response := response ++ g_people ++ " **Travelers**: " ++ str adults
                    ++ " adult(s)" ++ nl in
  estimated_cost <~ get result "estimated_cost" VNone ;;
  response <~ (if truthy estimated_cost then
                 cost <~ subscript result "estimated_cost" ;;
                 amount <~ fixed2 cost ;;
                 ok (response ++ g_money ++ " **Estimated Cost**: $" ++ amount ++ nl ++ nl)
               else ok response) ;;
  (* Flight options *)
  flights <~ get trip_data "flights" (VList []) ;;
  flights <~ slice flights (VInt 3) ;;
  response <~ (if truthy flights then
                 let response := response ++ g_plane ++ " **Flight Options:**" ++ nl in
                 items <~ iterate flights ;;
                 response <~ for_each (enumerate 1 items) flight_option response ;;
                 ok (response ++ nl)
               else ok response) ;;
  (* Hotel options *)
  hotels <~ get trip_data "hotels" (VList []) ;;
  hotels <~ slice hotels (VInt 3) ;;
  response <~ (if truthy hotels then
                 let response := response ++ g_hotel ++ " **Hotel Options:**" ++ nl in
                 items <~ iterate hotels ;;
                 response <~ for_each (enumerate 1 items) hotel_option response ;;
                 ok (response ++ nl)
               else ok response) ;;
  (* Daily itinerary *)
  itinerary <~ get result "itinerary" (VList []) ;;
  response <~ (if truthy itinerary then
                 let response := response ++ g_clipboard ++ " **Daily Itinerary:**" ++ nl in
                 days <~ slice itinerary (VInt 5) ;;
                 days <~ iterate days ;;
                 for_each days itinerary_day response
               else ok response) ;;
  (* Restaurant recommendations *)
  restaurants <~ get trip_data "restaurants" (VList []) ;;
  restaurants <~ slice restaurants (VInt 5) ;;
  response <~ (if truthy restaurants then
                 let response := response ++ g_plate ++ " **Restaurant Recommendations:**"
                                   ++ nl in
                 items <~ iterate restaurants ;;
                 response <~ for_each items restaurant_line response ;;
                 ok (response ++ nl)
               else ok response) ;;
  (* Events and activities *)
  events <~ get trip_data "events" (VList []) ;;
  events <~ slice events (VInt 3) ;;
  response <~ (if truthy events then
                 let response := response ++ g_masks ++ " **Events During Your Visit:**"
                                   ++ nl in
                 items <~ iterate events ;;
                 response <~ for_each items event_line response ;;
                 ok (response ++ nl)
               else ok response) ;;
  (* Travel advisories *)
  visa_info <~ get trip_data "visa_info" (VDict []) ;;
  safety_info <~ get trip_data "safety_info" (VDict []) ;;
  response <~ (if truthy visa_info || truthy safety_info then
                 let response := response ++ g_info
                                   ++ " **Important Travel Information:**" ++ nl in
                 required <~ get visa_info "required" VNone ;;
                 response <~ (if truthy required then
                                details <~ get visa_info "details" (VStr "Check requirements") ;;
                                ok (response ++ g_bullet ++ " Visa Required: " ++ str details
                                      ++ nl)
                              else ok response) ;;
                 advisories <~ get safety_info "advisories" VNone ;;
                 response <~ (if truthy advisories then
                                level <~ get safety_info "level" (VStr "Standard precautions") ;;
                                ok (response ++ g_bullet ++ " Safety Advisory: " ++ str level
                                      ++ nl)
                              else ok response) ;;
                 ok (response ++ nl)
               else ok response) ;;
  (* Booking links *)
  booking_links <~ get trip_data "booking_links" (VDict []) ;;
  response <~ (if truthy booking_links then
                 let response := response ++ g_link ++ " **Quick Booking Links:**" ++ nl in
                 hotels <~ get booking_links "hotels" VNone ;;
                 response <~ (if truthy hotels then
                                links <~ subscript booking_links "hotels" ;;
                                n <~ len links ;;
                                ok (response ++ g_bullet ++ " Hotels: " ++ Z_to_string n
                                      ++ " options available" ++ nl)
                              else ok response) ;;
                 flights <~ get booking_links "flights" VNone ;;
                 response <~ (if truthy flights then
                                links <~ subscript booking_links "flights" ;;
                                n <~ len links ;;
                                ok (response ++ g_bullet ++ " Flights: " ++ Z_to_string n
                                      ++ " booking options" ++ nl)
                              else ok response) ;;
                 ok (response ++ nl)
               else ok response) ;;
  ok (response ++ g_sparkles
        ++ " **Trip planning complete! Use the booking links to reserve your selections.**").

Definition trip_payload (origin destination start_date end_date adults budget activities
    accommodation_type dietary_restrictions : value) : value :=
  VDict [
    ("origin", origin);
    ("destination", destination);
    ("start_date", start_date);
    ("end_date", end_date);
    ("adults", adults);
    ("budget", budget);
    ("activities", activities);
    ("accommodation_type", accommodation_type);
    ("dietary_restrictions", dietary_restrictions);
    ("avoid_bad_weather", VBool true);
    ("language", VStr "en")].

Definition plan_trip (origin destination start_date end_date adults budget activities
    accommodation_type dietary_restrictions : value) : Prog string :=
  try_except
    ((* Generate comprehensive trip plan *)
     result <- await generate_itinerary
                 [trip_payload origin destination start_date end_date adults budget
                    activities accommodation_type dietary_restrictions] [] ;;
     attempt (trip_plan origin destination start_date end_date adults result))
    (internal_error "Trip planning failed: ").

(** *** [get_weather] *)

Definition forecast_day (response : string) (item : Z * value) : Res string :=
  let (i, day) := item in
  date <~ get day "date" (VStr "Unknown") ;;
  temp_high <~ get day "temperature_high" (VStr "N/A") ;;
  temp_low <~ get day "temperature_low" (VStr "N/A") ;;
  description <~ get day "description" (VStr "No description") ;;
  let response := response ++ "**" ++ str date ++ "**: " ++ str temp_high ++ g_degree
                    ++ "/" ++ str temp_low ++ g_degree ++ " - " ++ str description ++ nl in
  (* Add travel recommendations *)
  lowered <~ lower description ;;
  let response :=
    if contains "rain" lowered || contains "storm" lowered then
      response ++ "  " ++ g_rain_cloud ++ " *Recommend indoor activities*" ++ nl
    else if contains "snow" lowered then
      response ++ "  " ++ g_snowflake ++ " *Pack warm clothes, check transport*" ++ nl
    else if contains "sun" lowered || contains "clear" lowered then
      response ++ "  " ++ g_sun ++ " *Perfect for outdoor activities*" ++ nl
    else response in
  ok (response ++ nl).

(** What [get_weather] makes of the provider's answer. *)
Definition weather_text (location days forecast : value) : Res string :=
  if negb (truthy forecast) then
    ok (g_cross ++ " Unable to get weather forecast for " ++ str location)
  else
    let response := g_sun_cloud ++ " **Weather Forecast for " ++ str location
                      ++ "**" ++ nl ++ nl in
    shown <~ slice forecast days ;;
    shown <~ iterate shown ;;
    for_each (enumerate 0 shown) forecast_day response.

Definition get_weather (location days : value) : Prog string :=
  try_except
    (forecast <- await get_forecast [location] [] ;;
     attempt (weather_text location days forecast))
    (internal_error "Weather lookup failed: ").

(** *** [search_hotel_options] *)

Definition hotel_entry (response : string) (item : Z * value) : Res string :=
  let (i, hotel) := item in
  name <~ get hotel "name" (VStr "Unknown Hotel") ;;
  price <~ get hotel "price_per_night" (VStr "N/A") ;;
  rating <~ get hotel "rating" (VStr "N/A") ;;
  address <~ get hotel "address" (VStr "Address not available") ;;
  let response := response ++ "**" ++ Z_to_string i ++ ". " ++ str name ++ "**" ++ nl in
  let response := response ++ "   " ++ g_money ++ " $" ++ str price ++ "/night | " ++ g_star
                    ++ " " ++ str rating ++ " | " ++ g_pin ++ " " ++ str address ++ nl in
  (* Add amenities if available *)
  amenities <~ get hotel "amenities" (VList []) ;;
  response <~ (if truthy amenities then
                 first_three <~ slice amenities (VInt 3) ;;
                 joined <~ join ", " first_three ;;
                 ok (response ++ "   " ++ g_target ++ " " ++ joined ++ nl)
               else ok response) ;;
  ok (response ++ nl).

Definition hotels_text (destination check_in check_out adults hotels : value) : Res string :=
  if negb (truthy hotels) then
    ok (g_cross ++ " No hotels found for " ++ str destination ++ " on " ++ str check_in
          ++ " to " ++ str check_out)
  else
    let response := g_hotel ++ " **Hotel Options in " ++ str destination ++ "**" ++ nl in
    let response := response ++ g_calendar ++ " " ++ str check_in ++ " to "
                      ++ str check_out ++ " | " ++ g_people ++ " " ++ str adults
                      ++ " adult(s)" ++ nl ++ nl in
    shown <~ slice hotels (VInt 8) ;;
    shown <~ iterate shown ;;
    for_each (enumerate 1 shown) hotel_entry response.

Definition search_hotel_options (destination check_in check_out adults min_rating
    accommodation_type : value) : Prog string :=
  try_except
    (hotels <- await search_hotels [] [
         ("destination", destination);
         ("check_in", check_in);
         ("check_out", check_out);
         ("adults", adults);
         ("min_rating", min_rating);
         ("accommodation_type", accommodation_type)] ;;
     attempt (hotels_text destination check_in check_out adults hotels))
    (internal_error "Hotel search failed: ").

(** *** [search_flight_options] *)

Definition flight_entry (response : string) (item : Z * value) : Res string :=
  let (i, flight) := item in
  airline <~ get flight "airline" (VStr "Unknown") ;;
  price <~ get flight "price" (VStr "N/A") ;;
  departure_time <~ get flight "departure_time" (VStr "TBD") ;;
  arrival_time <~ get flight "arrival_time" (VStr "TBD") ;;
  duration <~ get flight "duration" (VStr "N/A") ;;
  stops <~ get flight "stops" (VInt 0) ;;
  let response := response ++ "**" ++ Z_to_string i ++ ". " ++ str airline ++ "**" ++ nl in
  let response := response ++ "   " ++ g_money ++ " $" ++ str price ++ " | " ++ g_clock
                    ++ " " ++ str departure_time ++ " " ++ g_arrow ++ " "
                    ++ str arrival_time ++ " (" ++ str duration ++ ")" ++ nl in
  ok (response ++ "   " ++ g_plane ++ " " ++ str stops ++ " stop(s)" ++ nl ++ nl).

Definition flights_text (origin destination departure_date return_date adults cabin_class
    flights : value) : Res string :=
  if negb (truthy flights) then
    ok (g_cross ++ " No flights found from " ++ str origin ++ " to " ++ str destination
          ++ " on " ++ str departure_date)
  else
    let trip_type := if truthy return_date then "Round Trip" else "One Way" in
    let response := g_plane ++ " **Flight Options: " ++ str origin ++ " " ++ g_arrow
                      ++ " " ++ str destination ++ "**" ++ nl in
    cabin <~ title cabin_class ;;
    let response := response ++ g_calendar ++ " " ++ str departure_date ++ " | "
                      ++ g_people ++ " " ++ str adults ++ " adult(s) | " ++ g_ticket
                      ++ " " ++ cabin ++ " | " ++ trip_type ++ nl ++ nl in
    shown <~ slice flights (VInt 6) ;;
    shown <~ iterate shown ;;
    for_each (enumerate 1 shown) flight_entry response.

Definition search_flight_options (origin destination departure_date return_date adults
    cabin_class : value) : Prog string :=
  try_except
    (flights <- await search_flights [] [
         ("origin", origin);
         ("destination", destination);
         ("departure_date", departure_date);
         ("adults", adults);
         ("cabin_class", cabin_class)] ;;
     attempt (flights_text origin destination departure_date return_date adults cabin_class
                flights))
    (internal_error "Flight search failed: ").

(** *** [discover_places] *)

Definition place_entry (response : string) (item : Z * value) : Res string :=
  let (i, place) := item in
  name <~ get place "name" (VStr "Unknown Place") ;;
  rating <~ get place "rating" (VStr "N/A") ;;
  address <~ get place "address" (VStr "Address not available") ;;
  description <~ get place "description" (VStr "") ;;
  let response := response ++ "**" ++ Z_to_string i ++ ". " ++ str name ++ "**" ++ nl in
  let response := response ++ "   " ++ g_star ++ " " ++ str rating ++ " | " ++ g_pin ++ " "
                    ++ str address ++ nl in
  response <~ (if truthy description then
                 shortened <~ slice description (VInt 100) ;;
                 n <~ len description ;;
                 ok (response ++ "   " ++ g_pin ++ " " ++ str shortened
                       ++ (if (100 <? n)%Z then "..." else "") ++ nl)
               else ok response) ;;
  ok (response ++ nl).

Definition places_query (destination activity_type : value) : string :=
  if truthy activity_type
  then str activity_type ++ " in " ++ str destination
  else "things to do in " ++ str destination.

Definition places_text (destination activity_type limit : value) (query : string)
    (places : value) : Res string :=
  if negb (truthy places) then
    ok (g_cross ++ " No places found for " ++ query)
  else
    let response := g_target ++ " **Places to Visit in " ++ str destination ++ "**" ++ nl in
    response <~ (if truthy activity_type then
                   category <~ title activity_type ;;
                   ok (response ++ g_magnifier ++ " Category: " ++ category ++ nl)
                 else ok response) ;;
    let response := response ++ nl in
    shown <~ slice places limit ;;
    shown <~ iterate shown ;;
    for_each (enumerate 1 shown) place_entry response.

Definition discover_places (destination activity_type limit : value) : Prog string :=
  try_except
    (let query := places_query destination activity_type in
     places <- await search_places [VStr query] [] ;;
     attempt (places_text destination activity_type limit query places))
    (internal_error "Places search failed: ").

(** *** [find_restaurants] *)

Definition restaurant_entry (response : string) (item : Z * value) : Res string :=
  let (i, restaurant) := item in
  name <~ get restaurant "name" (VStr "Unknown Restaurant") ;;
  rating <~ get restaurant "rating" (VStr "N/A") ;;
  price_level <~ get restaurant "price_level" (VStr "N/A") ;;
  cuisine <~ get restaurant "cuisine" (VStr "Various") ;;
  address <~ get restaurant "address" (VStr "Address not available") ;;
  let response := response ++ "**" ++ Z_to_string i ++ ". " ++ str name ++ "**" ++ nl in
  let response := response ++ "   " ++ g_star ++ " " ++ str rating ++ " | " ++ g_money ++ " "
                    ++ str price_level ++ " | " ++ g_plate ++ " " ++ str cuisine ++ nl in
  ok (response ++ "   " ++ g_pin ++ " " ++ str address ++ nl ++ nl).

Definition restaurants_text (destination cuisine_types dietary_restrictions price_range
    restaurants : value) : Res string :=
  if negb (truthy restaurants) then
    ok (g_cross ++ " No restaurants found in " ++ str destination
          ++ " matching your criteria")
  else
    let response := g_plate ++ " **Restaurant Recommendations in " ++ str destination
                      ++ "**" ++ nl in
    response <~ (if truthy cuisine_types then
                   joined <~ join ", " cuisine_types ;;
                   ok (response ++ g_bowl ++ " Cuisine: " ++ joined ++ nl)
                 else ok response) ;;
    response <~ (if truthy dietary_restrictions then
                   joined <~ join ", " dietary_restrictions ;;
                   ok (response ++ g_salad ++ " Dietary: " ++ joined ++ nl)
                 else ok response) ;;
    let response := if truthy price_range
                    then response ++ g_money ++ " Price Range: " ++ str price_range ++ nl
                    else response in
    let response := response ++ nl in
    shown <~ slice restaurants (VInt 10) ;;
    shown <~ iterate shown ;;
    for_each (enumerate 1 shown) restaurant_entry response.

Definition find_restaurants (destination cuisine_types dietary_restrictions price_range
    : value) : Prog string :=
  try_except
    (restaurants <- await search_restaurants [] [
         ("city", destination);
         ("cuisine_types", cuisine_types);
         ("price_range", price_range);
         ("dietary_restrictions", dietary_restrictions)] ;;
     attempt (restaurants_text destination cuisine_types dietary_restrictions price_range
                restaurants))
    (internal_error "Restaurant search failed: ").

(** *** [check_travel_requirements] *)

Definition visa_section (response : string) (visa_info : value) : Res string :=
  if truthy visa_info then
    let response := response ++ g_passport ++ " **Visa Requirements:**" ++ nl in
    required <~ get visa_info "required" VNone ;;
    response <~ (if truthy required then
                   visa_type <~ get visa_info "type" (VStr "Tourist visa") ;;
                   let response := response ++ "   " ++ g_check ++ " Visa Required: "
                                     ++ str visa_type ++ nl in
                   processing_time <~ get visa_info "processing_time" (VStr "Check embassy") ;;
                   let response := response ++ "   " ++ g_stopwatch ++ " Processing Time: "
                                     ++ str processing_time ++ nl in
                   fee <~ get visa_info "fee" (VStr "Contact embassy") ;;
                   ok (response ++ "   " ++ g_money ++ " Fee: " ++ str fee ++ nl)
                 else
                   ok (response ++ "   " ++ g_check ++ " No visa required for tourist visits"
                         ++ nl)) ;;
    duration <~ get visa_info "duration" VNone ;;
    response <~ (if truthy duration then
                   duration <~ get visa_info "duration" VNone ;;
                   ok (response ++ "   " ++ g_calendar ++ " Max Stay: " ++ str duration ++ nl)
                 else ok response) ;;
    ok (response ++ nl)
  else ok response.

Definition safety_section (response : string) (safety_info : value) : Res string :=
  if truthy safety_info then
    let response := response ++ g_warning ++ " **Safety Advisory:**" ++ nl in
    level <~ get safety_info "level" (VStr "Standard precautions") ;;
    let response := response ++ "   " ++ g_siren ++ " Level: " ++ str level ++ nl in
    advisories <~ get safety_info "advisories" VNone ;;
    response <~ (if truthy advisories then
                   listed <~ subscript safety_info "advisories" ;;
                   listed <~ slice listed (VInt 3) ;;
                   listed <~ iterate listed ;;
                   for_each listed
                     (fun response advisory =>
                        ok (response ++ "   " ++ g_bullet ++ " " ++ str advisory ++ nl))
                     response
                 else ok response) ;;
    last_updated <~ get safety_info "last_updated" (VStr "N/A") ;;
    ok (response ++ "   " ++ g_calendar ++ " Last Updated: " ++ str last_updated ++ nl ++ nl)
  else ok response.

Definition requirements_text (origin_country destination_country visa_info safety_info
    : value) : Res string :=
  let response := g_clipboard ++ " **Travel Requirements: " ++ str origin_country ++ " "
                    ++ g_arrow ++ " " ++ str destination_country ++ "**" ++ nl ++ nl in
  (* Visa information *)
  response <~ visa_section response visa_info ;;
  (* Safety advisories *)
  response <~ safety_section response safety_info ;;
  ok (response ++ g_info ++ " **Note**: Always verify current requirements with official embassy sources before travel.").

Definition check_travel_requirements (origin_country destination_country : value)
    : Prog string :=
  try_except
    ((* Get visa requirements *)
     visa_info <- await check_visa_requirements [origin_country; destination_country] [] ;;
     safety_info <- await get_safety_advisories [destination_country] [] ;;
     attempt (requirements_text origin_country destination_country visa_info safety_info))
    (internal_error "Travel requirements check failed: ").

End Handlers.

(** The registrations, in the order the module makes them. *)
Definition validate_tool : ToolEntry := fastmcp_tool "validate" [] Http_validate.

Definition plan_trip_tool : ToolEntry :=
  fastmcp_tool "plan_trip" [
    param "origin" TStr;
    param "destination" TStr;
    param "start_date" TStr;
    param "end_date" TStr;
    param_default "adults" TInt (VInt 1);
    param_default "budget" (TOptional TFloat) VNone;
    param_default "activities" (TListOf TStr) (VList []);
    param_default "accommodation_type" (TOptional TStr) VNone;
    param_default "dietary_restrictions" (TListOf TStr) (VList [])
  ] Http_plan_trip.

Definition get_weather_tool : ToolEntry :=
  fastmcp_tool "get_weather" [
    param "location" TStr;
    param_default "days" TInt (VInt 5)
  ] Http_get_weather.

Definition search_hotel_options_tool : ToolEntry :=
  fastmcp_tool "search_hotel_options" [
    param "destination" TStr;
    param "check_in" TStr;
    param "check_out" TStr;
    param_default "adults" TInt (VInt 1);
    param_default "min_rating" (TOptional TFloat) VNone;
    param_default "accommodation_type" (TOptional TStr) VNone
  ] Http_search_hotel_options.

Definition search_flight_options_tool : ToolEntry :=
  fastmcp_tool "search_flight_options" [
    param "origin" TStr;
    param "destination" TStr;
    param "departure_date" TStr;
    param_default "return_date" (TOptional TStr) VNone;
    param_default "adults" TInt (VInt 1);
    param_default "cabin_class" TStr (VStr "economy")
  ] Http_search_flight_options.

Definition discover_places_tool : ToolEntry :=
  fastmcp_tool "discover_places" [
    param "destination" TStr;
    param_default "activity_type" (TOptional TStr) VNone;
    param_default "limit" TInt (VInt 10)
  ] Http_discover_places.

Definition find_restaurants_tool : ToolEntry :=
  fastmcp_tool "find_restaurants" [
    param "destination" TStr;
    param_default "cuisine_types" (TListOf TStr) (VList []);
    param_default "dietary_restrictions" (TListOf TStr) (VList []);
    param_default "price_range" (TOptional TStr) VNone
  ] Http_find_restaurants.

Definition check_travel_requirements_tool : ToolEntry :=
  fastmcp_tool "check_travel_requirements" [
    param "origin_country" TStr;
    param "destination_country" TStr
  ] Http_check_travel_requirements.

(** Loading the module: [mcp = FastMCP(...)] followed by the decorators. *)
Definition load : Prog unit :=
  _ <- add_tool validate_tool ;;
  _ <- add_tool plan_trip_tool ;;
  _ <- add_tool get_weather_tool ;;
  _ <- add_tool search_hotel_options_tool ;;
  _ <- add_tool search_flight_options_tool ;;
  _ <- add_tool discover_places_tool ;;
  _ <- add_tool find_restaurants_tool ;;
  add_tool check_travel_requirements_tool.

End Http.

(** ** [mcp_http_server_minimal.py] *)

Module Minimal.

Definition g_check : string := "✅".
Definition g_cross : string := "❌".
Definition g_sun_cloud : string := "🌤️".
Definition g_thermometer : string := "🌡️".
Definition g_degree : string := "°".
Definition g_droplet : string := "💧".
Definition g_wind : string := "💨".
Definition g_calendar : string := "📅".
Definition g_umbrella : string := "☔".
Definition g_backpack : string := "🎒".
Definition g_bullet : string := "•".
Definition g_globe : string := "🌍".
Definition g_folder : string := "📂".
Definition g_star : string := "⭐".
Definition g_pin : string := "📍".
Definition g_memo : string := "📝".
Definition g_label : string := "🏷️".
Definition g_plate : string := "🍽️".
Definition g_pizza : string := "🍕".
Definition g_money : string := "💰".
Definition g_cutlery : string := "🍴".
Definition g_sparkles : string := "✨".
Definition g_passport : string := "🛂".
Definition g_arrow : string := "→".
Definition g_clipboard : string := "📋".
Definition g_id : string := "🆔".
Definition g_info : string := "ℹ️".
Definition g_stopwatch : string := "⏱️".
Definition g_page : string := "📄".
Definition g_warning : string := "⚠️".
Definition g_green : string := "🟢".
Definition g_yellow : string := "🟡".
Definition g_red : string := "🔴".
Definition g_chart : string := "📊".
Definition g_newspaper : string := "📰".
Definition g_syringe : string := "💉".
Definition g_magnifier : string := "🔍".

(** *** [SimpleBearerAuthProvider] *)

Definition load_access_token (self_token token : string) : option (list (string * value)) :=
  if String.eqb token self_token then
    Some [("token", VStr token);
          ("client_id", VStr "puch-client");
          ("scopes", VList [VStr "*"]);
          ("subject", VStr "puch-client")]
  else None.

(** *** The tools *)

Section Handlers.
Context {R : Runtime}.

(** *** [health_check] *)

Definition health_check : Prog string :=
  ret (g_check ++ " MCP Travel Assistant is running! Available tools: weather, places, restaurants, travel requirements.").

(** *** [get_weather] *)

Definition daily_line (response : string) (day : value) : Res string :=
  date <~ get day "date" (VStr "") ;;
  high <~ get day "high_temp" (VStr "N/A") ;;
  low <~ get day "low_temp" (VStr "N/A") ;;
  condition <~ get day "condition" (VStr "N/A") ;;
  rain_chance <~ get day "rain_chance" (VInt 0) ;;
  let response := response ++ g_calendar ++ " " ++ str date ++ ": " ++ str high ++ "/"
                    ++ str low ++ g_degree ++ "C | " ++ str condition in
  rainy <~ greater rain_chance 30 ;;
  let response := if rainy
                  then response ++ " | " ++ g_umbrella ++ " " ++ str rain_chance ++ "% rain"
                  else response in
  ok (response ++ nl).

Definition weather_report (location forecast : value) : Res string :=
  (* Format weather response for travel planning *)
  let response := g_sun_cloud ++ " **Weather Forecast for " ++ str location ++ "**"
                    ++ nl ++ nl in
  (* Current conditions *)
  current <~ get forecast "current" (VDict []) ;;
  response <~ (if truthy current then
                 temp <~ get current "temperature" (VStr "N/A") ;;
                 condition <~ get current "condition" (VStr "N/A") ;;
                 humidity <~ get current "humidity" (VStr "N/A") ;;
                 wind <~ get current "wind_speed" (VStr "N/A") ;;
                 let response := response ++ "**Current Conditions:**" ++ nl in
                 let response := response ++ g_thermometer ++ " " ++ str temp ++ g_degree
                                   ++ "C | " ++ str condition ++ nl in
                 ok (response ++ g_droplet ++ " Humidity: " ++ str humidity ++ "% | "
                       ++ g_wind ++ " Wind: " ++ str wind ++ " km/h" ++ nl ++ nl)
               else ok response) ;;
  (* Daily forecast *)
  daily <~ get forecast "daily" (VList []) ;;
  response <~ (if truthy daily then
                 let response := response ++ "**7-Day Forecast:**" ++ nl in
                 week <~ slice daily (VInt 7) ;;
                 week <~ iterate week ;;
                 for_each week daily_line response
               else ok response) ;;
  (* Travel tips *)
  let response := response ++ nl ++ g_backpack ++ " **Travel Tips:**" ++ nl in
  temperature <~ get current "temperature" (VInt 0) ;;
  cold <~ less temperature 10 ;;
  response <~ (if cold then
                 ok (response ++ g_bullet ++ " Pack warm clothing and layers" ++ nl)
               else
                 temperature <~ get current "temperature" (VInt 0) ;;
                 hot <~ greater temperature 30 ;;
                 if hot then
                   ok (response ++ g_bullet ++ " Stay hydrated and wear sun protection" ++ nl)
                 else ok response) ;;
  soon <~ slice daily (VInt 3) ;;
  soon <~ iterate soon ;;
  wet <~ any_of soon (fun day => rain_chance <~ get day "rain_chance" (VInt 0) ;;
                                  greater rain_chance 50) ;;
  let response := if wet
                  then response ++ g_bullet ++ " Bring rain gear or umbrella" ++ nl
                  else response in
  ok response.

Definition weather_text (location forecast : value) : Res string :=
  if negb (truthy forecast) then
    ok (g_cross ++ " Unable to get weather forecast for " ++ str location)
  else weather_report location forecast.

Definition get_weather (location : value) : Prog string :=
  try_except
    (forecast <- await get_forecast [location] [] ;;
     attempt (weather_text location forecast))
    (internal_error "Weather forecast failed: ").

(** *** [discover_places] *)

Definition place_entry (response : string) (item : Z * value) : Res string :=
  let (i, place) := item in
  name <~ get place "name" (VStr "Unknown Place") ;;
  rating <~ get place "rating" (VStr "N/A") ;;
  address <~ get place "address" (VStr "Address not available") ;;
  description <~ get place "description" (VStr "") ;;
  let response := response ++ "**" ++ Z_to_string i ++ ". " ++ str name ++ "**" ++ nl in
  let response := response ++ "   " ++ g_star ++ " Rating: " ++ str rating ++ " | " ++ g_pin
                    ++ " " ++ str address ++ nl in
  response <~ (if truthy description then
                 (* Truncate long descriptions *)
                 n <~ len description ;;
                 desc_short <~ (if (150 <? n)%Z then
                                  head <~ slice description (VInt 150) ;;
                                  add_suffix head "..."
                                else ok description) ;;
                 ok (response ++ "   " ++ g_memo ++ " " ++ str desc_short ++ nl)
               else ok response) ;;
  (* Add category/type if available *)
  place_type <~ get place "types" (VList []) ;;
  response <~ (if truthy place_type then
                 first_two <~ slice place_type (VInt 2) ;;
                 joined <~ join ", " first_two ;;
                 ok (response ++ "   " ++ g_label ++ " " ++ joined ++ nl)
               else ok response) ;;
  ok (response ++ nl).

Definition places_text (destination category places : value) : Res string :=
  if negb (truthy places) then
    ok (g_cross ++ " No places found in " ++ str destination)
  else
    let response := g_globe ++ " **Places to Discover in " ++ str destination ++ "**"
                      ++ nl in
    response <~ (if truthy category then
                   titled <~ title category ;;
                   ok (response ++ g_folder ++ " Category: " ++ titled ++ nl ++ nl)
                 else ok response) ;;
    shown <~ slice places (VInt 8) ;;
    shown <~ iterate shown ;;
    for_each (enumerate 1 shown) place_entry response.

Definition discover_places (destination category : value) : Prog string :=
  try_except
    (places <- await search_places [] [
         ("location", destination);
         ("category", if truthy category then category else VStr "tourist_attraction")] ;;
     attempt (places_text destination category places))
    (internal_error "Places search failed: ").

(** *** [find_restaurants] *)

Definition restaurant_entry (response : string) (item : Z * value) : Res string :=
  let (i, restaurant) := item in
  name <~ get restaurant "name" (VStr "Unknown Restaurant") ;;
  rating <~ get restaurant "rating" (VStr "N/A") ;;
  cuisine <~ get restaurant "cuisine" (VStr "") ;;
  price <~ get restaurant "price_level" (VStr "") ;;
  address <~ get restaurant "address" (VStr "") ;;
  let response := response ++ "**" ++ Z_to_string i ++ ". " ++ str name ++ "**" ++ nl in
  let response := response ++ "   " ++ g_star ++ " " ++ str rating in
  let response := if truthy cuisine
                  then response ++ " | " ++ g_cutlery ++ " " ++ str cuisine
                  else response in
  let response := if truthy price
                  then response ++ " | " ++ g_money ++ " " ++ str price
                  else response in
  let response := response ++ nl in
  let response := if truthy address
                  then response ++ "   " ++ g_pin ++ " " ++ str address ++ nl
                  else response in
  (* Add special features *)
  features <~ get restaurant "features" (VList []) ;;
  response <~ (if truthy features then
                 first_three <~ slice features (VInt 3) ;;
                 joined <~ join ", " first_three ;;
                 ok (response ++ "   " ++ g_sparkles ++ " " ++ joined ++ nl)
               else ok response) ;;
  ok (response ++ nl).

Definition restaurants_text (location cuisine_type price_range restaurants : value)
    : Res string :=
  if negb (truthy restaurants) then
    ok (g_cross ++ " No restaurants found in " ++ str location)
  else
    let response := g_plate ++ " **Restaurant Recommendations in " ++ str location
                      ++ "**" ++ nl in
    response <~ (if truthy cuisine_type then
                   titled <~ title cuisine_type ;;
                   ok (response ++ g_pizza ++ " Cuisine: " ++ titled ++ nl)
                 else ok response) ;;
    response <~ (if truthy price_range then
                   titled <~ title price_range ;;
                   ok (response ++ g_money ++ " Price Range: " ++ titled ++ nl)
                 else ok response) ;;
    let response := response ++ nl in
    shown <~ slice restaurants (VInt 8) ;;
    shown <~ iterate shown ;;
    for_each (enumerate 1 shown) restaurant_entry response.

Definition find_restaurants (location cuisine_type price_range : value) : Prog string :=
  try_except
    (restaurants <- await search_restaurants [] [
         ("location", location);
         ("cuisine", cuisine_type);
         ("price_range", price_range)] ;;
     attempt (restaurants_text location cuisine_type price_range restaurants))
    (internal_error "Restaurant search failed: ").

(** *** [check_travel_requirements] *)

Definition visa_section (response : string) (origin_country visa_info : value)
    : Res string :=
  if truthy visa_info then
    visa_required <~ get visa_info "visa_required" (VStr "Unknown") ;;
    duration <~ get visa_info "max_stay" (VStr "") ;;
    let response := response ++ "**" ++ g_clipboard ++ " Visa Requirements:**" ++ nl in
    let response :=
      if equals_str visa_required "no" then
        response ++ g_check ++ " No visa required for " ++ str origin_country
          ++ " passport holders" ++ nl
      else if equals_str visa_required "yes" then
        response ++ g_id ++ " Visa required for " ++ str origin_country
          ++ " passport holders" ++ nl
      else
        response ++ g_info ++ " Visa status: " ++ str visa_required ++ nl in
    let response := if truthy duration
                    then response ++ g_stopwatch ++ " Maximum stay: " ++ str duration ++ nl
                    else response in
    (* Additional visa details *)
    requirements <~ get visa_info "requirements" (VList []) ;;
    if truthy requirements then
      joined <~ join ", " requirements ;;
      ok (response ++ g_page ++ " Requirements: " ++ joined ++ nl)
    else ok response
  else ok response.

Definition safety_section (response : string) (safety_info : value) : Res string :=
  if truthy safety_info then
    advisory_level <~ get safety_info "advisory_level" (VStr "") ;;
    summary <~ get safety_info "summary" (VStr "") ;;
    let response := response ++ "**" ++ g_warning ++ " Safety Information:**" ++ nl in
    response <~ (if truthy advisory_level then
                   lowered <~ lower advisory_level ;;
                   if contains "low" lowered then
                     ok (response ++ g_green ++ " Safety Level: " ++ str advisory_level ++ nl)
                   else if contains "medium" lowered then
                     ok (response ++ g_yellow ++ " Safety Level: " ++ str advisory_level ++ nl)
                   else if contains "high" lowered then
                     ok (response ++ g_red ++ " Safety Level: " ++ str advisory_level ++ nl)
                   else
                     ok (response ++ g_chart ++ " Safety Level: " ++ str advisory_level ++ nl)
                 else ok response) ;;
    let response := if truthy summary
                    then response ++ g_newspaper ++ " " ++ str summary ++ nl
                    else response in
    (* Health recommendations *)
    health <~ get safety_info "health" (VDict []) ;;
    if truthy health then
      vaccines <~ get health "recommended_vaccines" (VList []) ;;
      if truthy vaccines then
        joined <~ join ", " vaccines ;;
        ok (response ++ g_syringe ++ " Recommended vaccines: " ++ joined ++ nl)
      else ok response
    else ok response
  else ok response.

Definition requirements_text (destination_country origin_country visa_info safety_info
    : value) : Res string :=
  let response := g_passport ++ " **Travel Requirements: " ++ str origin_country ++ " "
                    ++ g_arrow ++ " " ++ str destination_country ++ "**" ++ nl ++ nl in
  (* Visa Information *)
  response <~ visa_section response origin_country visa_info ;;
  let response := response ++ nl in
  (* Safety Information *)
  response <~ safety_section response safety_info ;;
  ok (response ++ nl ++ g_magnifier ++ " **Always verify current requirements with official embassy sources before travel.**").

Definition check_travel_requirements (destination_country origin_country : value)
    : Prog string :=
  try_except
    ((* Get visa requirements *)
     visa_info <- await check_visa_requirements [origin_country; destination_country] [] ;;
     (* Get safety information *)
     safety_info <- await get_safety_advisories [destination_country] [] ;;
     attempt (requirements_text destination_country origin_country visa_info safety_info))
    (internal_error "Travel requirements check failed: ").

End Handlers.

(** The registrations, in the order the module makes them. *)
Definition health_check_tool : ToolEntry := fastmcp_tool "health_check" [] Minimal_health_check.

Definition get_weather_tool : ToolEntry :=
  fastmcp_tool "get_weather" [
    param "location" TStr
  ] Minimal_get_weather.

Definition discover_places_tool : ToolEntry :=
  fastmcp_tool "discover_places" [
    param "destination" TStr;
    param_default "category" (TOptional TStr) VNone
  ] Minimal_discover_places.

Definition find_restaurants_tool : ToolEntry :=
  fastmcp_tool "find_restaurants" [
    param "location" TStr;
    param_default "cuisine_type" (TOptional TStr) VNone;
    param_default "price_range" (TOptional TStr) VNone
  ] Minimal_find_restaurants.

Definition check_travel_requirements_tool : ToolEntry :=
  fastmcp_tool "check_travel_requirements" [
    param "destination_country" TStr;
    param "origin_country" TStr
  ] Minimal_check_travel_requirements.

Definition load : Prog unit :=
  _ <- add_tool health_check_tool ;;
  _ <- add_tool get_weather_tool ;;
  _ <- add_tool discover_places_tool ;;
  _ <- add_tool find_restaurants_tool ;;
  add_tool check_travel_requirements_tool.

End Minimal.

(** ** [mcp_server.py] *)

Module Stdio.

Section Handlers.
Context {R : Runtime}.

(** [kwargs[key]] and [kwargs.get(key, default)] on the keyword dict. *)
Definition item (kwargs : list (string * value)) (key : string) : Res value :=
  subscript (VDict kwargs) key.

Definition item_or (kwargs : list (string * value)) (key : string) (default : value) : value :=
  match lookup key kwargs with
  | Some v => v
  | None => default
  end.

Definition _json_content (payload : value) : list TextContent :=
  [{| type := "text"; text := json_dumps payload |}].

Definition tool_get_weather (kwargs : list (string * value)) : Prog (list TextContent) :=
  location <- attempt (item kwargs "location") ;;
  forecast <- await get_forecast [location] [] ;;
  ret (_json_content forecast).

Definition tool_discover_places (kwargs : list (string * value)) : Prog (list TextContent) :=
  destination <- attempt (item kwargs "destination") ;;
  places <- await search_places [] [
      ("location", destination);
      ("category", item_or kwargs "category" (VStr "tourist_attraction"))] ;;
  ret (_json_content places).

Definition tool_find_restaurants (kwargs : list (string * value)) : Prog (list TextContent) :=
  location <- attempt (item kwargs "location") ;;
  restaurants <- await search_restaurants [] [
      ("location", location);
      ("cuisine", item_or kwargs "cuisine_type" VNone);
      ("price_range", item_or kwargs "price_range" VNone)] ;;
  ret (_json_content restaurants).

Definition tool_check_travel_requirements (kwargs : list (string * value))
    : Prog (list TextContent) :=
  (* Get visa requirements *)
  origin_country <- attempt (item kwargs "origin_country") ;;
  destination_country <- attempt (item kwargs "destination_country") ;;
  visa_info <- await check_visa_requirements [origin_country; destination_country] [] ;;
  (* Get safety information *)
  destination_country <- attempt (item kwargs "destination_country") ;;
  safety_info <- await get_safety_advisories [destination_country] [] ;;
  let result := VDict [
      ("visa_requirements", visa_info);
      ("safety_advisories", safety_info)] in
  ret (_json_content result).

End Handlers.

(** The registrations.  The schema is the [input_schema] given to the
    decorator; the function itself takes [**kwargs]. *)
Definition server_tool (name : string) (properties : list Param) (required : list string)
    (h : handler) : ToolEntry :=
  {| t_name := name; t_params := properties; t_required := required;
     t_var_keywords := true; t_handler := h |}.

Definition get_weather_tool : ToolEntry :=
  server_tool "get_weather" [param "location" TStr] ["location"] Stdio_tool_get_weather.

Definition discover_places_tool : ToolEntry :=
  server_tool "discover_places" [param "destination" TStr; param "category" TStr]
    ["destination"] Stdio_tool_discover_places.

Definition find_restaurants_tool : ToolEntry :=
  server_tool "find_restaurants"
    [param "location" TStr; param "cuisine_type" TStr; param "price_range" TStr]
    ["location"] Stdio_tool_find_restaurants.

Definition check_travel_requirements_tool : ToolEntry :=
  server_tool "check_travel_requirements"
    [param "destination_country" TStr; param "origin_country" TStr]
    ["destination_country"; "origin_country"] Stdio_tool_check_travel_requirements.

Definition load : Prog unit :=
  _ <- add_tool get_weather_tool ;;
  _ <- add_tool discover_places_tool ;;
  _ <- add_tool find_restaurants_tool ;;
  add_tool check_travel_requirements_tool.

End Stdio.

(** ** [keep_alive.py] *)

Module KeepAlive.

Definition MCP_SERVER_URL : string := "https://mcp-travel.onrender.com/mcp/".
Definition PING_INTERVAL : Z := 300.
Definition TIMEOUT : Z := 30.

Definition g_paddle : string := "🏓".
Definition g_check : string := "✅".
Definition g_warning : string := "⚠️".
Definition g_alarm : string := "⏰".
Definition g_plug : string := "🔌".
Definition g_cross : string := "❌".

(** The counters of an [MCPKeepAlive] object. *)
Record MCPKeepAlive : Type := {
  ping_count : Z;
  success_count : Z;
  error_count : Z
}.

(** [__init__] *)
Definition init : MCPKeepAlive :=
  {| ping_count := 0; success_count := 0; error_count := 0 |}.

(** [create_health_ping]; [id] is the [str(uuid.uuid4())] of the request. *)
Definition create_health_ping (id : string) : value :=
  VDict [
    ("jsonrpc", VStr "2.0");
    ("id", VStr id);
    ("method", VStr "tools/call");
    ("params", VDict [("name", VStr "health_check"); ("arguments", VDict [])])].

(** What a request of the [httpx] client comes to. *)
Inductive Reply : Type :=
| Responded (status_code : Z) (text : string) (content_type : option string)
| TimeoutException
| ConnectError
| Raised (e : exn).

Inductive Level : Type := DEBUG | INFO | WARNING | ERROR.

(** What a method leaves behind: its result, the object and the records
    it handed to the logger. *)
Definition Logged (A : Type) : Type := Res A * MCPKeepAlive * list (Level * string).

Definition counted (self : MCPKeepAlive) (pings successes errors : Z) : MCPKeepAlive :=
  {| ping_count := ping_count self + pings;
     success_count := success_count self + successes;
     error_count := error_count self + errors |}.

Section WithRuntime.
Context {R : Runtime}.

(** [send_ping]; [posted] is what the POST of the health check comes to. *)
Definition send_ping (self : MCPKeepAlive) (posted : Reply) : Logged bool :=
  let sending :=
    (INFO, g_paddle ++ " Sending ping #" ++ Z_to_string (ping_count self + 1) ++ " to "
             ++ MCP_SERVER_URL) in
  match posted with
  | Responded status_code text content_type =>
      if (status_code =? 200)%Z then
        (ok true, counted self 1 1 0,
         [sending;
          (INFO, g_check ++ " Ping successful! Server is alive (Status: "
                   ++ Z_to_string status_code ++ ")");
          (* Log basic response info *)
          (DEBUG, "   Content-Type: "
                    ++ match content_type with Some t => t | None => "unknown" end);
          (DEBUG, "   Response length: " ++ Z_to_string (Z.of_nat (length (characters text)))
                    ++ " chars")])
      else
        (ok false, counted self 1 0 1,
         [sending;
          (WARNING, g_warning ++ "  Ping returned status " ++ Z_to_string status_code);
          (WARNING, "   Response: "
                      ++ String.concat "" (slice_to 200 (characters text)) ++ "...")])
  | TimeoutException =>
      (ok false, counted self 0 0 1,
       [sending;
        (ERROR, g_alarm ++ " Ping timeout after " ++ Z_to_string TIMEOUT ++ " seconds")])
  | ConnectError =>
      (ok false, counted self 0 0 1,
       [sending; (ERROR, g_plug ++ " Connection error - server might be down")])
  | Raised e =>
      if is_Exception e then
        (ok false, counted self 0 0 1,
         [sending; (ERROR, g_cross ++ " Ping failed with error: " ++ exn_str e)])
      else (inl e, self, [sending])
  end.

End WithRuntime.

End KeepAlive.

(* ===================================================================== *)
(** * Part 4: dispatch                                                    *)
(* ===================================================================== *)

Definition Arguments : Type := list (string * value).

Definition has_key (key : string) (arguments : Arguments) : bool :=
  match lookup key arguments with Some _ => true | None => false end.

Definition declares (params : list Param) (key : string) : bool :=
  existsb (fun p => String.eqb (p_name p) key) params.

Definition is_required (p : Param) : bool :=
  match p_default p with None => true | Some _ => false end.

(** Python's binding of the keyword arguments of a call of [fn] to the
    parameters of [fn]: a keyword that names no parameter is refused
    first, then parameters without a default that received no value; the
    other parameters take the value given or their default. *)
Definition bind_keywords (fn : string) (params : list Param) (arguments : Arguments)
    : Res Arguments :=
  match find (fun kv => negb (declares params (fst kv))) arguments with
  | Some (kw, _) => fail (UnexpectedKeyword fn kw)
  | None =>
      match filter (fun p => is_required p && negb (has_key (p_name p) arguments)) params with
      | [] =>
          ok (map (fun p =>
                     (p_name p,
                      match lookup (p_name p) arguments, p_default p with
                      | Some v, _ => v
                      | None, Some default => default
                      | None, None => VNone
                      end)) params)
      | missing => fail (MissingArguments fn (map p_name missing))
      end
  end.

(** The arguments with which the tool's function starts to run. *)
Definition bind_arguments (t : ToolEntry) (arguments : Arguments) : Res Arguments :=
  if t_var_keywords t then ok arguments
  else bind_keywords (t_name t) (t_params t) arguments.

(** The value of a bound parameter. *)
Definition arg (bound : Arguments) (name : string) : value :=
  match lookup name bound with
  | Some v => v
  | None => VNone
  end.

Section Dispatch.
Context {R : Runtime}.

Definition formatted (p : Prog string) : Prog payload :=
  response <- p ;; ret (Formatted response).

Definition contents (p : Prog (list TextContent)) : Prog payload :=
  items <- p ;; ret (Contents items).

(** The function behind each registered handler, applied to its bound
    arguments. *)
Definition run_handler (h : handler) (a : Arguments) : Prog payload :=
  match h with
  | Http_validate => formatted Http.validate
  | Http_plan_trip =>
      formatted (Http.plan_trip (arg a "origin") (arg a "destination") (arg a "start_date")
                   (arg a "end_date") (arg a "adults") (arg a "budget") (arg a "activities")
                   (arg a "accommodation_type") (arg a "dietary_restrictions"))
  | Http_get_weather => formatted (Http.get_weather (arg a "location") (arg a "days"))
  | Http_search_hotel_options =>
      formatted (Http.search_hotel_options (arg a "destination") (arg a "check_in")
                   (arg a "check_out") (arg a "adults") (arg a "min_rating")
                   (arg a "accommodation_type"))
  | Http_search_flight_options =>
      formatted (Http.search_flight_options (arg a "origin") (arg a "destination")
                   (arg a "departure_date") (arg a "return_date") (arg a "adults")
                   (arg a "cabin_class"))
  | Http_discover_places =>
      formatted (Http.discover_places (arg a "destination") (arg a "activity_type")
                   (arg a "limit"))
  | Http_find_restaurants =>
      formatted (Http.find_restaurants (arg a "destination") (arg a "cuisine_types")
                   (arg a "dietary_restrictions") (arg a "price_range"))
  | Http_check_travel_requirements =>
      formatted (Http.check_travel_requirements (arg a "origin_country")
                   (arg a "destination_country"))
  | Minimal_health_check => formatted Minimal.health_check
  | Minimal_get_weather => formatted (Minimal.get_weather (arg a "location"))
  | Minimal_discover_places =>
      formatted (Minimal.discover_places (arg a "destination") (arg a "category"))
  | Minimal_find_restaurants =>
      formatted (Minimal.find_restaurants (arg a "location") (arg a "cuisine_type")
                   (arg a "price_range"))
  | Minimal_check_travel_requirements =>
      formatted (Minimal.check_travel_requirements (arg a "destination_country")
                   (arg a "origin_country"))
  | Stdio_tool_get_weather => contents (Stdio.tool_get_weather a)
  | Stdio_tool_discover_places => contents (Stdio.tool_discover_places a)
  | Stdio_tool_find_restaurants => contents (Stdio.tool_find_restaurants a)
  | Stdio_tool_check_travel_requirements => contents (Stdio.tool_check_travel_requirements a)
  end.

(** Calling a tool's function with a request's arguments. *)
Definition dispatch (t : ToolEntry) (arguments : Arguments) : Prog payload :=
  bound <- attempt (bind_arguments t arguments) ;;
  run_handler (t_handler t) bound.

Definition find_tool (name : string) (r : Registry) : option ToolEntry :=
  find (fun t => String.eqb (t_name t) name) r.

(** One invocation: look the tool up in the registry, call its function. *)
Definition call_tool (name : string) (arguments : Arguments) : Prog payload :=
  fun env w =>
    match find_tool name (registry w) with
    | Some t => dispatch t arguments env w
    | None => (inl (UnknownTool name), w)
    end.

End Dispatch.

(** A process before its module is loaded, and the registry once it is. *)
Definition fresh : World := {| registry := []; calls := [] |}.

Definition silent : Env := {| respond := fun _ => inr VNone; MY_NUMBER := "" |}.

Definition registered (load : Prog unit) : Registry := registry (snd (load silent fresh)).

Inductive server : Type := HttpServer | MinimalServer | StdioServer.

Definition tools_of (s : server) : Registry :=
  match s with
  | HttpServer => registered Http.load
  | MinimalServer => registered Minimal.load
  | StdioServer => registered Stdio.load
  end.

(** The result of an invocation and the provider calls it made, in a
    process that has made none before. *)
Definition started (s : server) : World := {| registry := tools_of s; calls := [] |}.

Definition invoke {R : Runtime} (s : server) (name : string) (arguments : Arguments)
    (env : Env) : Outcome * list ProviderCall :=
  let (r, w) := call_tool name arguments env (started s) in
  (outcome_of r, calls w).

(* ===================================================================== *)
(** * A runtime to compute with                                           *)
(* ===================================================================== *)

(** [Reference] is what the worked examples are evaluated with.  It follows
    CPython 3.11 on ASCII text without quotes, backslashes or control
    characters, on integers below 2^53, on floats between 1e-4 and 1e16
    whose decimal expansion is short, and on containers of these.  The
    properties of the adapters do not depend on it: they hold for every
    [Runtime]. *)
Module Reference.

Definition dq : string := String "034"%char EmptyString.

Definition is_upper (c : ascii) : bool :=
  let n := nat_of_ascii c in (65 <=? n)%nat && (n <=? 90)%nat.
Definition is_lower (c : ascii) : bool :=
  let n := nat_of_ascii c in (97 <=? n)%nat && (n <=? 122)%nat.
Definition to_lower (c : ascii) : ascii :=
  if is_upper c then ascii_of_nat (nat_of_ascii c + 32) else c.
Definition to_upper (c : ascii) : ascii :=
  if is_lower c then ascii_of_nat (nat_of_ascii c - 32) else c.

Fixpoint lower (s : string) : string :=
  match s with
  | EmptyString => EmptyString
  | String c rest => String (to_lower c) (lower rest)
  end.

(** [str.title]: a letter that follows a non-letter is made upper case, any
    other letter lower case. *)
Fixpoint title_from (inside_word : bool) (s : string) : string :=
  match s with
  | EmptyString => EmptyString
  | String c rest =>
      let letter := is_upper c || is_lower c in
      String (if letter then (if inside_word then to_lower c else to_upper c) else c)
             (title_from letter rest)
  end.

Definition title (s : string) : string := title_from false s.

(** ** Numbers *)

Fixpoint zeros (n : nat) : string :=
  match n with
  | O => ""
  | S m => "0" ++ zeros m
  end.

(** [n] written with at least [width] digits. *)
Definition padded (width : nat) (n : Z) : string :=
  let digits := Z_to_string n in
  zeros (width - String.length digits) ++ digits.

Fixpoint without_trailing_zeros (s : string) : string :=
  match s with
  | EmptyString => EmptyString
  | String c rest =>
      match without_trailing_zeros rest with
      | EmptyString => if Ascii.eqb c "0" then EmptyString else String c EmptyString
      | kept => String c kept
      end
  end.

(** The decimal expansion of [m * 2^e], which is finite. *)
Definition expansion (m : positive) (e : Z) : string :=
  if (0 <=? e)%Z then Z_to_string (Z.pos m * 2 ^ e) ++ ".0"
  else
    let k := Z.to_nat (- e) in
    let scaled := (Z.pos m * 5 ^ (- e))%Z in
    let unit := (10 ^ (- e))%Z in
    let decimals := without_trailing_zeros (padded k (scaled mod unit)) in
    Z_to_string (scaled / unit) ++ "."
      ++ (if String.eqb decimals "" then "0" else decimals).

Definition sign (negative : bool) : string := if negative then "-" else "".

Definition float_text (infinity nan : string) (x : float) : string :=
  match Prim2SF x with
  | S754_zero negative => sign negative ++ "0.0"
  | S754_infinity negative => sign negative ++ infinity
  | S754_nan => nan
  | S754_finite negative m e => sign negative ++ expansion m e
  end.

(** [m * 2^e] in hundredths, rounded to the nearest, ties to even. *)
Definition hundredths (m : positive) (e : Z) : Z :=
  if (0 <=? e)%Z then (Z.pos m * 2 ^ e * 100)%Z
  else
    let unit := (2 ^ (- e))%Z in
    let q := (Z.pos m * 100 / unit)%Z in
    let r := (Z.pos m * 100 mod unit)%Z in
    if (unit <? 2 * r)%Z then (q + 1)%Z
    else if (2 * r =? unit)%Z then (q + q mod 2)%Z
    else q.

Definition money (negative : bool) (cents : Z) : string :=
  sign negative ++ Z_to_string (cents / 100) ++ "." ++ padded 2 (cents mod 100).

Definition two_decimals (v : value) : option string :=
  match v with
  | VInt n => Some (money (n <? 0)%Z (Z.abs n * 100))
  | VBool b => Some (if b then "1.00" else "0.00")
  | VFloat x =>
      Some match Prim2SF x with
           | S754_zero negative => money negative 0
           | S754_infinity negative => sign negative ++ "inf"
           | S754_nan => "nan"
           | S754_finite negative m e => money negative (hundredths m e)
           end
  | _ => None
  end.

(** ** [repr] and [json.dumps] *)

Definition quoted (s : string) : string :=
  if contains "'" s && negb (contains dq s) then dq ++ s ++ dq else "'" ++ s ++ "'".

Fixpoint repr (v : value) : string :=
  match v with
  | VNone => "None"
  | VBool true => "True"
  | VBool false => "False"
  | VInt n => Z_to_string n
  | VFloat x => float_text "inf" "nan" x
  | VStr s => quoted s
  | VList xs => "[" ++ String.concat ", " (map repr xs) ++ "]"
  | VDict items =>
      "{" ++ String.concat ", "
               (map (fun kv : string * value => let (k, x) := kv in quoted k ++ ": " ++ repr x)
                  items)
          ++ "}"
  end.

Fixpoint dumps (v : value) : string :=
  match v with
  | VNone => "null"
  | VBool true => "true"
  | VBool false => "false"
  | VInt n => Z_to_string n
  | VFloat x => float_text "Infinity" "NaN" x
  | VStr s => dq ++ s ++ dq
  | VList xs => "[" ++ String.concat ", " (map dumps xs) ++ "]"
  | VDict items =>
      "{" ++ String.concat ", "
               (map (fun kv : string * value =>
                       let (k, x) := kv in dq ++ k ++ dq ++ ": " ++ dumps x) items)
          ++ "}"
  end.

(** ** The messages of the built-ins' errors *)

Definition named (names : list string) : string :=
  match names with
  | [] => ""
  | [a] => quoted a
  | [a; b] => quoted a ++ " and " ++ quoted b
  | _ => String.concat ", " (map quoted (removelast names)) ++ ", and "
           ++ quoted (last names "")
  end.

Definition message (f : fault) : string :=
  match f with
  | NoAttribute v attr =>
      "'" ++ type_name v ++ "' object has no attribute '" ++ attr ++ "'"
  | BadSubscript v _ =>
      match v with
      | VList _ => "list indices must be integers or slices, not str"
      | VStr _ => "string indices must be integers, not 'str'"
      | _ => "'" ++ type_name v ++ "' object is not subscriptable"
      end
  | KeyMissing key => quoted key
  | BadSlice v _ =>
      match v with
      | VList _ | VStr _ =>
          "slice indices must be integers or None or have an __index__ method"
      | VDict _ => "unhashable type: 'slice'"
      | _ => "'" ++ type_name v ++ "' object is not subscriptable"
      end
  | NotIterable v => "'" ++ type_name v ++ "' object is not iterable"
  | NotJoinable _ => "can only join an iterable"
  | JoinItem position v =>
      "sequence item " ++ Z_to_string (Z.of_nat position) ++ ": expected str instance, "
        ++ type_name v ++ " found"
  | NoLen v => "object of type '" ++ type_name v ++ "' has no len()"
  | BadCompare op v _ =>
      "'" ++ op ++ "' not supported between instances of '" ++ type_name v ++ "' and 'int'"
  | BadFormat v _ =>
      match v with
      | VStr _ => "Unknown format code 'f' for object of type 'str'"
      | _ => "unsupported format string passed to " ++ type_name v ++ ".__format__"
      end
  | BadConcat v _ =>
      match v with
      | VList _ => "can only concatenate list (not " ++ dq ++ "str" ++ dq ++ ") to list"
      | _ => "unsupported operand type(s) for +: '" ++ type_name v ++ "' and 'str'"
      end
  | UnexpectedKeyword fn kw => fn ++ "() got an unexpected keyword argument '" ++ kw ++ "'"
  | MissingArguments fn names =>
      fn ++ "() missing " ++ Z_to_string (Z.of_nat (length names))
        ++ " required positional argument"
        ++ (if (length names =? 1)%nat then "" else "s") ++ ": " ++ named names
  end.

Definition runtime : Runtime := {|
  str_lower := lower;
  str_title := title;
  py_repr := repr;
  format_2f := two_decimals;
  json_dumps := dumps;
  fault_message := message
|}.

End Reference.

(* ===================================================================== *)
(** * Part 5: the vocabulary of the properties                            *)
(* ===================================================================== *)

(** What the properties of Part 6 are stated with: the provider calls a
    handler is expected to make, the texts it is expected to return, and
    the requests and stub providers of the worked examples. *)

Section Vocabulary.
Context {R : Runtime}.

(** ** What a handler asks of the providers *)

Definition call (f : Collaborator) (positional : list value)
    (keywords : list (string * value)) : ProviderCall :=
  {| callee := f; positional := positional; keywords := keywords |}.

(** [plan h a] lists the provider calls that handler [h] makes when it runs
    with the bound arguments [a], in order: which provider, and which
    argument of the tool goes to which parameter of the provider.  The
    handlers of [mcp_server.py] read their arguments from the keyword dict
    while they build the call, so for them the plan exists only when the
    keys are there. *)
Definition plan (h : handler) (a : Arguments) : Res (list ProviderCall) :=
  match h with
  | Http_validate => ok []
  | Http_plan_trip =>
      ok [call generate_itinerary
            [Http.trip_payload (arg a "origin") (arg a "destination") (arg a "start_date")
               (arg a "end_date") (arg a "adults") (arg a "budget") (arg a "activities")
               (arg a "accommodation_type") (arg a "dietary_restrictions")] []]
  | Http_get_weather => ok [call get_forecast [arg a "location"] []]
  | Http_search_hotel_options =>
      ok [call search_hotels [] [
            ("destination", arg a "destination");
            ("check_in", arg a "check_in");
            ("check_out", arg a "check_out");
            ("adults", arg a "adults");
            ("min_rating", arg a "min_rating");
            ("accommodation_type", arg a "accommodation_type")]]
  | Http_search_flight_options =>
      ok [call search_flights [] [
            ("origin", arg a "origin");
            ("destination", arg a "destination");
            ("departure_date", arg a "departure_date");
            ("adults", arg a "adults");
            ("cabin_class", arg a "cabin_class")]]
  | Http_discover_places =>
      ok [call search_places
            [VStr (Http.places_query (arg a "destination") (arg a "activity_type"))] []]
  | Http_find_restaurants =>
      ok [call search_restaurants [] [
            ("city", arg a "destination");
            ("cuisine_types", arg a "cuisine_types");
            ("price_range", arg a "price_range");
            ("dietary_restrictions", arg a "dietary_restrictions")]]
  | Http_check_travel_requirements =>
      ok [call check_visa_requirements [arg a "origin_country"; arg a "destination_country"] [];
          call get_safety_advisories [arg a "destination_country"] []]
  | Minimal_health_check => ok []
  | Minimal_get_weather => ok [call get_forecast [arg a "location"] []]
  | Minimal_discover_places =>
      ok [call search_places [] [
            ("location", arg a "destination");
            ("category", if truthy (arg a "category") then arg a "category"
                         else VStr "tourist_attraction")]]
  | Minimal_find_restaurants =>
      ok [call search_restaurants [] [
            ("location", arg a "location");
            ("cuisine", arg a "cuisine_type");
            ("price_range", arg a "price_range")]]
  | Minimal_check_travel_requirements =>
      ok [call check_visa_requirements [arg a "origin_country"; arg a "destination_country"] [];
          call get_safety_advisories [arg a "destination_country"] []]
  | Stdio_tool_get_weather =>
      location <~ Stdio.item a "location" ;;
      ok [call get_forecast [location] []]
  | Stdio_tool_discover_places =>
      destination <~ Stdio.item a "destination" ;;
      ok [call search_places [] [
            ("location", destination);
            ("category", Stdio.item_or a "category" (VStr "tourist_attraction"))]]
  | Stdio_tool_find_restaurants =>
      location <~ Stdio.item a "location" ;;
      ok [call search_restaurants [] [
            ("location", location);
            ("cuisine", Stdio.item_or a "cuisine_type" VNone);
            ("price_range", Stdio.item_or a "price_range" VNone)]]
  | Stdio_tool_check_travel_requirements =>
      origin_country <~ Stdio.item a "origin_country" ;;
      destination_country <~ Stdio.item a "destination_country" ;;
      ok [call check_visa_requirements [origin_country; destination_country] [];
          call get_safety_advisories [destination_country] []]
  end.

(** The shape of a call: the provider, the number of positional arguments
    and the names of the keyword arguments. *)
Definition shape (c : ProviderCall) : Collaborator * nat * list string :=
  (callee c, length (positional c), map fst (keywords c)).

(** The call shapes of every handler, as its source text fixes them. *)
Definition call_shapes (h : handler) : list (Collaborator * nat * list string) :=
  match h with
  | Http_validate | Minimal_health_check => []
  | Http_plan_trip => [(generate_itinerary, 1%nat, [])]
  | Http_get_weather | Minimal_get_weather | Stdio_tool_get_weather =>
      [(get_forecast, 1%nat, [])]
  | Http_search_hotel_options =>
      [(search_hotels, 0%nat,
        ["destination"; "check_in"; "check_out"; "adults"; "min_rating";
         "accommodation_type"])]
  | Http_search_flight_options =>
      [(search_flights, 0%nat,
        ["origin"; "destination"; "departure_date"; "adults"; "cabin_class"])]
  | Http_discover_places => [(search_places, 1%nat, [])]
  | Http_find_restaurants =>
      [(search_restaurants, 0%nat,
        ["city"; "cuisine_types"; "price_range"; "dietary_restrictions"])]
  | Minimal_discover_places | Stdio_tool_discover_places =>
      [(search_places, 0%nat, ["location"; "category"])]
  | Minimal_find_restaurants | Stdio_tool_find_restaurants =>
      [(search_restaurants, 0%nat, ["location"; "cuisine"; "price_range"])]
  | Http_check_travel_requirements | Minimal_check_travel_requirements
  | Stdio_tool_check_travel_requirements =>
      [(check_visa_requirements, 2%nat, []); (get_safety_advisories, 1%nat, [])]
  end.

(** How many provider calls a handler makes: two for the composite tool,
    none for the two tools without a provider, one for every other. *)
Definition number_of_calls (h : handler) : nat :=
  match h with
  | Http_validate | Minimal_health_check => 0
  | Http_check_travel_requirements | Minimal_check_travel_requirements
  | Stdio_tool_check_travel_requirements => 2
  | _ => 1
  end.

(** The calls that are made out of a plan: one after the other, until a
    provider answers with an exception. *)
Fixpoint asked (env : Env) (p : list ProviderCall) : list ProviderCall :=
  match p with
  | [] => []
  | c :: rest =>
      c :: match respond env c with
           | inr _ => asked env rest
           | inl _ => []
           end
  end.


(** The process after some more provider calls. *)
Definition made_calls (w : World) (made : list ProviderCall) : World :=
  {| registry := registry w; calls := (calls w ++ made)%list |}.


(** The provider calls an invocation makes. *)
Definition calls_of (t : ToolEntry) (arguments : Arguments) (env : Env) : list ProviderCall :=
  match bind_arguments t arguments with
  | inr a =>
      match plan (t_handler t) a with
      | inr p => asked env p
      | inl _ => []
      end
  | inl _ => []
  end.

(** ** Requests *)

(** A request passes the validation its tool's schema stands for: every
    required parameter has a value and, for a function with named
    parameters, every argument names one of them. *)
Definition passes_validation (t : ToolEntry) (arguments : Arguments) : Prop :=
  (forall p, In p (t_required t) -> has_key p arguments = true)
  /\ (t_var_keywords t = false ->
      forall kv, In kv arguments -> declares (t_params t) (fst kv) = true).



(** ** Expected results *)


(** The results of [f] on every item, or the first exception. *)
Fixpoint collect {A B : Type} (f : A -> Res B) (xs : list A) : Res (list B) :=
  match xs with
  | [] => ok []
  | x :: rest => y <~ f x ;; ys <~ collect f rest ;; ok (y :: ys)
  end.




(** The label of a flight search, and a request that gives every
    argument. *)
Definition trip_label (return_date : value) : string :=
  if truthy return_date then "Round Trip" else "One Way".

Definition flight_arguments (origin destination departure_date return_date adults
    cabin_class : value) : Arguments :=
  [("origin", origin); ("destination", destination); ("departure_date", departure_date);
   ("return_date", return_date); ("adults", adults); ("cabin_class", cabin_class)].

(** A field of a record, or a default. *)
Definition field (record : list (string * value)) (key : string) (default : value) : value :=
  match lookup key record with
  | Some v => v
  | None => default
  end.






Definition countries (origin_country destination_country : value) : Arguments :=
  [("origin_country", origin_country); ("destination_country", destination_country)].

End Vocabulary.

(** ** The worked examples: requests and stub providers *)

(** The two countries of the specification's example. *)
Definition japan_request : Arguments :=
  [("origin_country", VStr "United States"); ("destination_country", VStr "Japan")].

(** Providers of which every call fails with the same exception. *)
Definition failing (text : string) : Env :=
  {| respond := fun _ => inl (Thrown UnderException text); MY_NUMBER := "" |}.

(** The parameters of [services.flights_api.search_flights] as
    PARAMETER_FIXES.py records them:
    [search_flights(origin, destination, date, adults=1, ...)]; of the
    parameters it leaves out, the call it documents passes [cabin_class]. *)
Definition search_flights_parameters : list Param := [
  param "origin" TStr;
  param "destination" TStr;
  param "date" TStr;
  param_default "adults" TInt (VInt 1);
  param_default "cabin_class" TStr (VStr "economy")].

(** Providers among which [search_flights] has that signature (and finds
    no flight). *)
Definition documented_flights : Env := {|
  respond := fun c =>
    match callee c with
    | search_flights =>
        match bind_keywords "search_flights" search_flights_parameters (keywords c) with
        | inl e => inl e
        | inr _ => inr (VList [])
        end
    | _ => inr VNone
    end;
  MY_NUMBER := ""
|}.

(** A request as test_flight_fix.py sends it. *)
Definition flight_request : Arguments :=
  [("origin", VStr "NYC"); ("destination", VStr "LAX"); ("departure_date", VStr "2024-12-15");
   ("adults", VInt 1); ("cabin_class", VStr "economy")].


(** The example of the specification: a stub forecast of five days for
    London. *)
Definition forecast_of (date description : string) (high low : Z) : value :=
  VDict [("date", VStr date); ("temperature_high", VInt high); ("temperature_low", VInt low);
         ("description", VStr description)].

Definition london_forecast : list value := [
  forecast_of "2024-06-01" "Light rain" 18 11;
  forecast_of "2024-06-02" "Sunny" 24 14;
  forecast_of "2024-06-03" "Cloudy" 20 13;
  forecast_of "2024-06-04" "Snow showers" 1 (-3);
  forecast_of "2024-06-05" "Clear sky" 22 12].

Definition london_weather : Env :=
  {| respond := fun _ => inr (VList london_forecast); MY_NUMBER := "" |}.

(** A provider with two flights on offer. *)
Definition two_flights : Env := {|
  respond := fun _ =>
    inr (VList [VDict [("airline", VStr "Delta"); ("price", VInt 320)];
                VDict [("airline", VStr "United"); ("price", VInt 295); ("stops", VInt 1)]]);
  MY_NUMBER := ""
|}.

(** The example of the specification: stub providers with one fixed visa
    record and one fixed safety record, asked about United States and
    Japan. *)
Definition japan_visa : list (string * value) :=
  [("required", VBool false); ("duration", VStr "90 days")].

Definition japan_safety : list (string * value) :=
  [("level", VStr "Level 1: Exercise normal precautions");
   ("advisories", VList [VStr "Typhoon season runs from May to October"]);
   ("last_updated", VStr "2024-05-01")].

Definition japan_stubs : Env := {|
  respond := fun c =>
    match callee c with
    | check_visa_requirements => inr (VDict japan_visa)
    | get_safety_advisories => inr (VDict japan_safety)
    | _ => inr VNone
    end;
  MY_NUMBER := ""
|}.

Section MoreVocabulary.
Context {R : Runtime}.

(** The pieces a listing writes for its items, which it numbers from 1. *)
Definition numbered (entry : string -> Z * value -> Res string) (items : list value)
    : Res (list string) :=
  collect (entry "") (enumerate 1 items).








(** The heading of the places of [mcp_http_server.py]: the title, the
    category when one was asked for, then an empty line. *)
Definition places_header (a : Arguments) : string :=
  Http.g_target ++ " **Places to Visit in " ++ str (arg a "destination") ++ "**" ++ nl
  ++ match arg a "activity_type" with
     | VStr category =>
         if String.eqb category "" then ""
         else Http.g_magnifier ++ " Category: " ++ str_title category ++ nl
     | _ => ""
     end
  ++ nl.


(** An optional text argument, as the schemas declare it. *)
Definition optional_text (v : value) : Prop := v = VNone \/ exists s, v = VStr s.




(** ** The forecast of [mcp_http_server_minimal.py] *)

(** A day of that forecast: a record whose chance of rain, if it has one,
    is a whole number. *)
Definition rain_chance (day : value) : Z :=
  match day with
  | VDict record =>
      match field record "rain_chance" (VInt 0) with
      | VInt chance => chance
      | _ => 0
      end
  | _ => 0
  end.






(** ** The trip plan *)

(** The payload [plan_trip] hands to the itinerary provider for a request:
    the nine arguments under their own names, an optional argument the
    request leaves out with its default, then two fixed entries. *)
Definition itinerary_request (arguments : Arguments) : value :=
  VDict [
    ("origin", field arguments "origin" VNone);
    ("destination", field arguments "destination" VNone);
    ("start_date", field arguments "start_date" VNone);
    ("end_date", field arguments "end_date" VNone);
    ("adults", field arguments "adults" (VInt 1));
    ("budget", field arguments "budget" VNone);
    ("activities", field arguments "activities" (VList []));
    ("accommodation_type", field arguments "accommodation_type" VNone);
    ("dietary_restrictions", field arguments "dietary_restrictions" (VList []));
    ("avoid_bad_weather", VBool true);
    ("language", VStr "en")].

(** The plan of a trip about which the provider tells nothing. *)
Definition bare_plan (a : Arguments) : string :=
  Http.g_globe ++ " **Complete Trip Plan: " ++ str (arg a "origin") ++ " " ++ Http.g_arrow
  ++ " " ++ str (arg a "destination") ++ "**" ++ nl ++ nl
  ++ Http.g_calendar ++ " **Dates**: " ++ str (arg a "start_date") ++ " to "
  ++ str (arg a "end_date") ++ nl
  ++ Http.g_people ++ " **Travelers**: " ++ str (arg a "adults") ++ " adult(s)" ++ nl
  ++ Http.g_sparkles
  ++ " **Trip planning complete! Use the booking links to reserve your selections.**".

Definition is_record (v : value) : bool :=
  match v with
  | VDict _ => true
  | _ => false
  end.

(** ** The stdio server *)


(** ** The travel requirements of [mcp_http_server_minimal.py] *)







End MoreVocabulary.

(** ** What a trip plan shows of the provider's answer *)

(** The first [n] items of a list; any other value as it is. *)
Definition first_items (n : nat) (v : value) : value :=
  match v with
  | VList xs => VList (firstn n xs)
  | _ => v
  end.

(** A record with the field [key] (the one a lookup finds) changed by
    [f]; any other value as it is. *)
Fixpoint with_field (key : string) (f : value -> value) (record : list (string * value))
    : list (string * value) :=
  match record with
  | [] => []
  | (k, v) :: rest =>
      if String.eqb k key then (k, f v) :: rest
      else (k, v) :: with_field key f rest
  end.

Definition in_field (key : string) (f : value -> value) (v : value) : value :=
  match v with
  | VDict record => VDict (with_field key f record)
  | _ => v
  end.

(** The provider's answer cut down to what [plan_trip] shows of it: three
    flights, three hotels, five restaurants, three events, and five days
    of the itinerary with three activities each. *)
Definition day_in_brief (day : value) : value := in_field "activities" (first_items 3) day.

Definition itinerary_in_brief (itinerary : value) : value :=
  match itinerary with
  | VList days => VList (map day_in_brief (firstn 5 days))
  | _ => itinerary
  end.

Definition trip_data_in_brief (trip_data : value) : value :=
  in_field "flights" (first_items 3)
    (in_field "hotels" (first_items 3)
       (in_field "restaurants" (first_items 5)
          (in_field "events" (first_items 3) trip_data))).

Definition in_brief (result : value) : value :=
  in_field "itinerary" itinerary_in_brief (in_field "trip_data" trip_data_in_brief result).

(** ** Authentication *)

(** The bearer token a started server accepts: [AUTH_TOKEN] when that is
    set and not empty, [MCP_BEARER_TOKEN] otherwise. *)
Definition accepted (environ : Environ) (bearer : string) : Prop :=
  match environ_get environ "AUTH_TOKEN" with
  | Some preferred =>
      if String.eqb preferred "" then environ_get environ "MCP_BEARER_TOKEN" = Some bearer
      else bearer = preferred
  | None => environ_get environ "MCP_BEARER_TOKEN" = Some bearer
  end.

(** ** Keeping the server awake *)

(** The counters of [keep_alive.py] agree with each other: no more
    successes than answered pings, no more answered pings than successes
    and errors together. *)
Definition counters_agree (self : KeepAlive.MCPKeepAlive) : Prop :=
  (0 <= KeepAlive.success_count self <= KeepAlive.ping_count self)%Z
  /\ (KeepAlive.ping_count self
      <= KeepAlive.success_count self + KeepAlive.error_count self)%Z.

(** A ping that the server answered, and one it answered with status 200. *)
Definition answered (posted : KeepAlive.Reply) : bool :=
  match posted with
  | KeepAlive.Responded _ _ _ => true
  | _ => false
  end.

Definition alive (posted : KeepAlive.Reply) : bool :=
  match posted with
  | KeepAlive.Responded status_code _ _ => (status_code =? 200)%Z
  | _ => false
  end.

(** An outcome that [except Exception] handles. *)
Definition handled (posted : KeepAlive.Reply) : bool :=
  match posted with
  | KeepAlive.Raised e => is_Exception e
  | _ => true
  end.

(** ** Fetching *)

(** The request [google_search_links] sends for a query, and the markers
    it returns in place of links. *)
Definition search_request (query : string) : Http.Fetch.Request :=
  {| Http.Fetch.url := Http.Fetch.ddg_url query;
     Http.Fetch.request_headers := [("User-Agent", Http.Fetch.USER_AGENT)];
     Http.Fetch.follow_redirects := false;
     Http.Fetch.timeout := None |}.

Definition search_failed : list string := ["<error>Failed to perform search.</error>"].
Definition no_results : list string := ["<error>No results found.</error>"].

(** The request [fetch_url] sends, and the note it puts before a page it
    returns as it is. *)
Definition page_request (url user_agent : string) : Http.Fetch.Request :=
  {| Http.Fetch.url := url;
     Http.Fetch.request_headers := [("User-Agent", user_agent)];
     Http.Fetch.follow_redirects := true;
     Http.Fetch.timeout := Some 30%Z |}.

Definition content_type_of (response : Http.Fetch.Response) : string :=
  Http.Fetch.header (Http.Fetch.headers response) "content-type" "".

Definition raw_note (content_type : string) : string :=
  "Content type " ++ content_type
  ++ " cannot be simplified to markdown, but here is the raw content:" ++ nl.

(** ** More worked examples: requests and stub providers *)

(** Providers that answer every call with the same value. *)
Definition answering (v : value) : Env := {| respond := fun _ => inr v; MY_NUMBER := "" |}.












(** The place search of test_deployed_jsonrpc.py, with two places found. *)
Definition rome_request : Arguments :=
  [("destination", VStr "Rome"); ("activity_type", VStr "museums"); ("limit", VInt 5)].

Definition rome_search : ProviderCall := call search_places [VStr "museums in Rome"] [].

Definition rome_places : list value :=
  [VDict [("name", VStr "Capitoline Museums"); ("rating", VInt 5)];
   VDict [("name", VStr "Galleria Borghese"); ("description", VStr "Bernini and Caravaggio")]].

Definition rome_entries : list string :=
  ["**1. Capitoline Museums**" ++ nl
     ++ "   " ++ Http.g_star ++ " 5 | " ++ Http.g_pin ++ " Address not available" ++ nl ++ nl;
   "**2. Galleria Borghese**" ++ nl
     ++ "   " ++ Http.g_star ++ " N/A | " ++ Http.g_pin ++ " Address not available" ++ nl
     ++ "   " ++ Http.g_pin ++ " Bernini and Caravaggio" ++ nl ++ nl].









(** The trip of test_deployed_jsonrpc.py. *)
Definition paris_request : Arguments :=
  [("origin", VStr "New York"); ("destination", VStr "Paris");
   ("start_date", VStr "2024-07-01"); ("end_date", VStr "2024-07-05");
   ("adults", VInt 2); ("budget", VInt 3000);
   ("activities", VList [VStr "museums"; VStr "food"])].

Definition paris_bound : Arguments :=
  [("origin", VStr "New York"); ("destination", VStr "Paris");
   ("start_date", VStr "2024-07-01"); ("end_date", VStr "2024-07-05");
   ("adults", VInt 2); ("budget", VInt 3000);
   ("activities", VList [VStr "museums"; VStr "food"]);
   ("accommodation_type", VNone); ("dietary_restrictions", VList [])].

Definition paris_search : ProviderCall :=
  call generate_itinerary [itinerary_request paris_request] [].

(** An answer with four flights, of which the plan shows three. *)
Definition paris_answer : value :=
  VDict [("trip_data",
          VDict [("flights",
                  VList [VDict [("airline", VStr "Air France")];
                         VDict [("airline", VStr "Delta")];
                         VDict [("airline", VStr "United")];
                         VDict [("airline", VStr "Iberia")]])])].




(** An environment in which only [MCP_BEARER_TOKEN] is set, to the empty
    string. *)
Definition empty_token : Environ := [("MCP_BEARER_TOKEN", ""); ("MY_NUMBER", "")].

(** A web on which every request is answered with the same page, in which
    three result anchors are found. *)
Definition result_page : Http.Fetch.Response :=
  {| Http.Fetch.status_code := 200; Http.Fetch.text := "<html></html>";
     Http.Fetch.headers := [("content-type", "text/html; charset=utf-8")] |}.

Definition stub_web : Http.Fetch.Web := {|
  Http.Fetch.client_get := fun _ => Http.Fetch.Answered result_page;
  Http.Fetch.simple_json_from_html_string := fun _ => inr VNone;
  Http.Fetch.markdownify := fun _ => inr "";
  Http.Fetch.result_links := fun _ =>
    inr ["https://a.example/"; "/relative"; "https://b.example/"]
|}.

(* ===================================================================== *)
(** * Part 6: properties of the adapters                                  *)
(* ===================================================================== *)

(** ** The shape all handlers share *)

(** Unfolds a handler down to the provider's answers and the text
    function, which stay folded. *)
Ltac open_handler :=
  cbv beta iota zeta delta [
    run_handler formatted contents bind try_except await attempt ret raise internal_error
    my_number made_calls asked plan call res_bind ok fail
    Http.validate Http.plan_trip Http.get_weather Http.search_hotel_options
    Http.search_flight_options Http.discover_places Http.find_restaurants
    Http.check_travel_requirements
    Minimal.health_check Minimal.get_weather Minimal.discover_places
    Minimal.find_restaurants Minimal.check_travel_requirements
    Stdio.tool_get_weather Stdio.tool_discover_places Stdio.tool_find_restaurants
    Stdio.tool_check_travel_requirements Stdio.item subscript
    fst snd registry calls].

Ltac split_answers :=
  repeat match goal with
    | H : respond ?env ?c = _ |- context [respond ?env ?c] => rewrite H
    | |- context [match respond ?env ?c with _ => _ end] => destruct (respond env c) eqn:?
    | |- context [match lookup ?k ?a with _ => _ end] => destruct (lookup k a) eqn:?
    | |- context [match ?r with inl _ => _ | inr _ => _ end] => destruct r eqn:?
    | |- context [if is_Exception ?e then _ else _] => destruct (is_Exception e) eqn:?
    end.

Section Shape.
Context {R : Runtime}.

Lemma world_after_handler (h : handler) (a : Arguments) (env : Env) (w : World) :
  snd (run_handler h a env w) =
  made_calls w match plan h a with
               | inr p => asked env p
               | inl _ => []
               end.
Proof.
  destruct w as [reg made]; destruct h; open_handler; split_answers;
    rewrite <- ?app_assoc, ?app_nil_r; reflexivity.
Qed.

(** The result of a handler does not depend on the state of the process. *)
Lemma result_of_handler (h : handler) (a : Arguments) (env : Env) (w w' : World) :
  fst (run_handler h a env w) = fst (run_handler h a env w').
Proof.
  destruct h; open_handler; split_answers; reflexivity.
Qed.



End Shape.

(** ** The registries *)

Lemma tools_of_HttpServer :
  tools_of HttpServer =
  [Http.validate_tool; Http.plan_trip_tool; Http.get_weather_tool;
   Http.search_hotel_options_tool; Http.search_flight_options_tool;
   Http.discover_places_tool; Http.find_restaurants_tool;
   Http.check_travel_requirements_tool].
Proof. reflexivity. Qed.

Lemma tools_of_MinimalServer :
  tools_of MinimalServer =
  [Minimal.health_check_tool; Minimal.get_weather_tool; Minimal.discover_places_tool;
   Minimal.find_restaurants_tool; Minimal.check_travel_requirements_tool].
Proof. reflexivity. Qed.

Lemma tools_of_StdioServer :
  tools_of StdioServer =
  [Stdio.get_weather_tool; Stdio.discover_places_tool; Stdio.find_restaurants_tool;
   Stdio.check_travel_requirements_tool].
Proof. reflexivity. Qed.

(** Loading a module gives the same registry whatever surrounds the
    process, and it makes no provider call. *)
Lemma load_is_closed (env : Env) :
  snd (Http.load env fresh) = started HttpServer
  /\ snd (Minimal.load env fresh) = started MinimalServer
  /\ snd (Stdio.load env fresh) = started StdioServer.
Proof. repeat split. Qed.

(** No two tools of a server share a name, so which of two same-named
    registrations a lookup would prefer never matters. *)
Lemma tool_names_are_distinct (s : server) : NoDup (map t_name (tools_of s)).
Proof.
  destruct s; cbv [tools_of registered]; cbn;
    repeat (constructor; [cbn; intuition discriminate | ]); constructor.
Qed.

Lemma find_tool_In (name : string) (r : Registry) (t : ToolEntry) :
  find_tool name r = Some t -> In t r /\ t_name t = name.
Proof.
  unfold find_tool. intros F. apply find_some in F. destruct F as [I E].
  split; [exact I | now apply String.eqb_eq].
Qed.

(** ** Dispatch *)

Section DispatchFacts.
Context {R : Runtime}.

Lemma made_no_calls (w : World) : made_calls w [] = w.
Proof. destruct w; unfold made_calls; cbn. now rewrite app_nil_r. Qed.

Lemma world_after_dispatch (t : ToolEntry) (arguments : Arguments) (env : Env) (w : World) :
  snd (dispatch t arguments env w) = made_calls w (calls_of t arguments env).
Proof.
  unfold dispatch, calls_of, bind, attempt.
  destruct (bind_arguments t arguments) as [e | a]; cbn [snd].
  - now rewrite made_no_calls.
  - apply world_after_handler.
Qed.

Lemma result_of_dispatch (t : ToolEntry) (arguments : Arguments) (env : Env) (w w' : World) :
  fst (dispatch t arguments env w) = fst (dispatch t arguments env w').
Proof.
  unfold dispatch, bind, attempt.
  destruct (bind_arguments t arguments) as [e | a]; cbn [fst]; [reflexivity | ].
  apply result_of_handler.
Qed.

Lemma registry_after_call_tool (name : string) (arguments : Arguments) (env : Env)
    (w : World) :
  registry (snd (call_tool name arguments env w)) = registry w.
Proof.
  unfold call_tool. destruct (find_tool name (registry w)); [ | reflexivity].
  now rewrite world_after_dispatch.
Qed.

End DispatchFacts.

(** C8: the tool registry is never mutated after start-up.  An invocation
    of any tool with any arguments, whether it succeeds, fails or names no
    tool at all, leaves the registry (the tools, their schemas and their
    handlers) as it found it; and a second invocation gets the same result
    and makes the same provider calls after the first as it would have
    without it. *)
Theorem registry_is_never_mutated {R : Runtime} :
  forall (name : string) (arguments : Arguments) (env : Env) (w : World),
    registry (snd (call_tool name arguments env w)) = registry w
    /\ forall (other : string) (arguments' : Arguments),
         let w' := snd (call_tool name arguments env w) in
         fst (call_tool other arguments' env w') = fst (call_tool other arguments' env w)
         /\ exists made : list ProviderCall,
              calls (snd (call_tool other arguments' env w')) = (calls w' ++ made)%list
              /\ calls (snd (call_tool other arguments' env w)) = (calls w ++ made)%list.
Proof.
  intros name arguments env w.
  split; [apply registry_after_call_tool | ].
  intros other arguments' w'.
  assert (Reg : registry w' = registry w) by apply registry_after_call_tool.
  unfold call_tool. rewrite Reg.
  destruct (find_tool other (registry w)) as [t | ].
  - split; [apply result_of_dispatch | ].
    exists (calls_of t arguments' env).
    rewrite !world_after_dispatch. split; reflexivity.
  - split; [reflexivity | ].
    exists []. cbn [snd]. now rewrite !app_nil_r.
Qed.

(** ** Binding the arguments *)

Lemma find_all_false {A : Type} (f : A -> bool) (l : list A) :
  (forall x, In x l -> f x = false) -> find f l = None.
Proof.
  induction l as [ | x l IH]; intros H; cbn; [reflexivity | ].
  rewrite (H x (or_introl eq_refl)). apply IH. intros y I. apply H. now right.
Qed.

Lemma filter_all_false {A : Type} (f : A -> bool) (l : list A) :
  (forall x, In x l -> f x = false) -> filter f l = [].
Proof.
  induction l as [ | x l IH]; intros H; cbn; [reflexivity | ].
  rewrite (H x (or_introl eq_refl)). apply IH. intros y I. apply H. now right.
Qed.


Lemma required_of_spec (params : list Param) (name : string) :
  In name (required_of params) <->
  exists p, In p params /\ is_required p = true /\ p_name p = name.
Proof.
  unfold required_of. rewrite in_map_iff. split.
  - intros (p & E & I). apply filter_In in I. exists p. tauto.
  - intros (p & I & Q & E). exists p. split; [exact E | ]. apply filter_In. tauto.
Qed.

Lemma bind_keywords_succeeds (fn : string) (params : list Param) (arguments : Arguments) :
  (forall p, In p (required_of params) -> has_key p arguments = true) ->
  (forall kv, In kv arguments -> declares params (fst kv) = true) ->
  exists a, bind_keywords fn params arguments = inr a.
Proof.
  intros Req Decl. unfold bind_keywords.
  rewrite find_all_false.
  - rewrite filter_all_false; [eexists; reflexivity | ].
    intros p I. destruct (is_required p) eqn:Q; [ | reflexivity].
    rewrite Req; [reflexivity | ]. apply required_of_spec. now exists p.
  - intros kv I. now rewrite Decl.
Qed.


Lemma has_key_lookup (key : string) (arguments : Arguments) :
  has_key key arguments = true -> exists v, lookup key arguments = Some v.
Proof. unfold has_key. destruct (lookup key arguments); [eauto | discriminate]. Qed.


(** ** The calls of an invocation *)

Lemma asked_is_a_prefix (env : Env) (p : list ProviderCall) :
  exists rest, p = (asked env p ++ rest)%list.
Proof.
  induction p as [ | c p [rest IH]]; [now exists [] | ].
  cbn. destruct (respond env c).
  - now exists p.
  - exists rest. cbn. now rewrite <- IH.
Qed.

Lemma asked_all_answered (env : Env) (p : list ProviderCall) :
  (forall c, In c p -> exists v, respond env c = inr v) -> asked env p = p.
Proof.
  induction p as [ | c p IH]; intros H; [reflexivity | ].
  cbn. destruct (H c (or_introl eq_refl)) as [v ->].
  rewrite IH; [reflexivity | ]. intros c' I. apply H. now right.
Qed.

Lemma shapes_follow_the_source {R : Runtime} (h : handler) (a : Arguments)
    (p : list ProviderCall) :
  plan h a = inr p -> map shape p = call_shapes h.
Proof.
  destruct h; cbn; unfold Stdio.item, subscript, res_bind, ok, fail;
    repeat match goal with
      | |- context [lookup ?k a] => destruct (lookup k a)
      end;
    intros E; inversion E; reflexivity.
Qed.

Lemma shapes_have_distinct_providers (h : handler) :
  NoDup (map (fun s => fst (fst s)) (call_shapes h))
  /\ length (call_shapes h) = number_of_calls h.
Proof.
  destruct h; cbn; (split; [ | reflexivity]);
    repeat (constructor; [cbn; intuition discriminate | ]); constructor.
Qed.

Lemma NoDup_prefix {A : Type} (l rest : list A) : NoDup (l ++ rest) -> NoDup l.
Proof. intros H. now apply NoDup_app_remove_r in H. Qed.

Section Invocations.
Context {R : Runtime}.

Lemma invoke_found (s : server) (name : string) (t : ToolEntry) (arguments : Arguments)
    (env : Env) :
  find_tool name (tools_of s) = Some t ->
  invoke s name arguments env =
  (outcome_of (fst (dispatch t arguments env (started s))), calls_of t arguments env).
Proof.
  intros F. unfold invoke, call_tool. cbn [registry started]. rewrite F.
  destruct (dispatch t arguments env (started s)) as [r w] eqn:D.
  assert (W : w = snd (dispatch t arguments env (started s))) by now rewrite D.
  rewrite world_after_dispatch in W. subst w. reflexivity.
Qed.

(** Every tool of the FastMCP servers takes named parameters and requires
    those without a default; every tool of the stdio server takes the
    keyword dict. *)
Lemma tool_signatures (s : server) (t : ToolEntry) :
  In t (tools_of s) ->
  match s with
  | StdioServer => t_var_keywords t = true
  | _ => t_var_keywords t = false /\ t_required t = required_of (t_params t)
  end.
Proof.
  destruct s; cbv [tools_of registered]; cbn; intuition (subst; cbn; auto).
Qed.

Lemma validated_arguments_bind (s : server) (t : ToolEntry) (arguments : Arguments) :
  In t (tools_of s) ->
  passes_validation t arguments ->
  exists a p, bind_arguments t arguments = inr a /\ plan (t_handler t) a = inr p.
Proof.
  intros I [Req Decl]. pose proof (tool_signatures s t I) as S.
  destruct s.
  1, 2: destruct S as [V Q]; unfold bind_arguments; rewrite V;
        destruct (bind_keywords_succeeds (t_name t) (t_params t) arguments) as [a B];
        [ now rewrite <- Q | now apply Decl | ];
        exists a; rewrite B;
        cbv [tools_of registered] in I; cbn in I;
        intuition (subst; cbn; eexists; split; reflexivity).
  unfold bind_arguments. rewrite S. exists arguments.
  cbv [tools_of registered] in I; cbn in I.
  intuition (subst; cbn in Req |- *; unfold Stdio.item, subscript, res_bind, ok;
             repeat match goal with
               | |- context [lookup ?k arguments] =>
                   let v := fresh "v" in
                   destruct (has_key_lookup k arguments) as [v ->]; [apply Req; tauto | ]
               end;
             eexists; split; reflexivity).
Qed.

End Invocations.

(** C7: an invocation that passes argument validation makes the provider
    calls of its handler's plan, in order and nothing else: exactly one
    call for a simple tool, the two calls visa-then-safety for
    check_travel_requirements (none for validate and health_check, which
    have no provider).  The sequence is cut short only behind a call that
    a provider answered with an exception, and no provider is called
    twice, so nothing is retried. *)
Theorem single_invocation {R : Runtime} :
  forall (s : server) (name : string) (t : ToolEntry) (arguments : Arguments) (env : Env),
    find_tool name (tools_of s) = Some t ->
    passes_validation t arguments ->
    exists (a : Arguments) (p : list ProviderCall),
      bind_arguments t arguments = inr a
      /\ plan (t_handler t) a = inr p
      /\ map shape p = call_shapes (t_handler t)
      /\ length p = number_of_calls (t_handler t)
      /\ snd (invoke s name arguments env) = asked env p
      /\ ((forall c, In c p -> exists v, respond env c = inr v) ->
          snd (invoke s name arguments env) = p)
      /\ NoDup (map callee (snd (invoke s name arguments env))).
Proof.
  intros s name t arguments env F V.
  destruct (find_tool_In _ _ _ F) as [I _].
  destruct (validated_arguments_bind s t arguments I V) as (a & p & B & P).
  pose proof (shapes_follow_the_source _ _ _ P) as Sh.
  destruct (shapes_have_distinct_providers (t_handler t)) as [ND Len].
  assert (Calls : snd (invoke s name arguments env) = asked env p).
  { rewrite (invoke_found s name t arguments env F). cbn [snd].
    unfold calls_of. now rewrite B, P. }
  exists a, p. repeat split; try assumption.
  - rewrite <- Sh in Len. now rewrite length_map in Len.
  - intros A. rewrite Calls. now apply asked_all_answered.
  - rewrite Calls. destruct (asked_is_a_prefix env p) as [rest E].
    rewrite <- Sh in ND. rewrite map_map in ND. cbn in ND.
    rewrite E, map_app in ND. now apply NoDup_prefix in ND.
Qed.

Lemma single_invocation_witness :
  exists (a : Arguments) (p : list ProviderCall),
    bind_arguments Http.check_travel_requirements_tool japan_request = inr a
    /\ plan (R := Reference.runtime) Http_check_travel_requirements a = inr p
    /\ map shape p = call_shapes Http_check_travel_requirements
    /\ length p = number_of_calls Http_check_travel_requirements
    /\ snd (invoke (R := Reference.runtime) HttpServer "check_travel_requirements"
              japan_request silent) = asked silent p
    /\ ((forall c, In c p -> exists v, respond silent c = inr v) ->
        snd (invoke (R := Reference.runtime) HttpServer "check_travel_requirements"
               japan_request silent) = p)
    /\ NoDup (map callee (snd (invoke (R := Reference.runtime) HttpServer
                                 "check_travel_requirements" japan_request silent))).
Proof.
  apply (single_invocation (R := Reference.runtime) HttpServer "check_travel_requirements"
           Http.check_travel_requirements_tool japan_request silent).
  - reflexivity.
  - split.
    + intros p [<- | [<- | []]]; reflexivity.
    + intros _ kv [<- | [<- | []]]; reflexivity.
Defined.

(** ** Missing arguments *)




(** ** Failures *)

Section Failures.
Context {R : Runtime}.




End Failures.




(** The handlers of [mcp_server.py] have no [except] clause: there the
    provider's exception leaves the handler as it is. *)
Example stdio_handlers_do_not_catch :
  invoke (R := Reference.runtime) StdioServer "get_weather" [("location", VStr "London")]
    (failing "boom")
  = (Uncaught (Thrown UnderException "boom"), [call get_forecast [VStr "London"] []]).
Proof. reflexivity. Qed.

(** ** Argument translation *)

(** C1, as the code has it: the renaming of a tool's argument names to the
    provider's parameter names is written in the handler, as the keyword
    names of its provider call.  Registration records the tool without
    looking at them and always succeeds; the calls an invocation makes are
    those of the handler's plan, with the shapes its source text fixes. *)
Theorem translation_is_written_in_the_handler {R : Runtime} :
  forall (t : ToolEntry) (h : handler) (a : Arguments) (env : Env) (w : World),
    add_tool t env w
    = (inr tt, {| registry := (registry w ++ [t])%list; calls := calls w |})
    /\ match plan h a with
       | inr p =>
           map shape p = call_shapes h
           /\ calls (snd (run_handler h a env w)) = (calls w ++ asked env p)%list
       | inl _ => calls (snd (run_handler h a env w)) = calls w
       end.
Proof.
  intros t h a env w. split; [reflexivity | ].
  rewrite world_after_handler.
  destruct (plan h a) as [e | p] eqn:P; cbn.
  - apply app_nil_r.
  - split; [now apply shapes_follow_the_source with a | reflexivity].
Qed.

(** C1 fails as stated: [search_flight_options] is registered although the
    parameter [date], which [search_flights] requires, is given no value by
    the handler's call; the mismatch shows only when the tool is invoked,
    as the failure of that call. *)
Lemma flight_search_is_registered_unchecked :
  In Http.search_flight_options_tool (tools_of HttpServer)
  /\ In "date" (required_of search_flights_parameters)
  /\ call_shapes Http_search_flight_options
     = [(search_flights, 0%nat,
         ["origin"; "destination"; "departure_date"; "adults"; "cabin_class"])]
  /\ ~ In "date" ["origin"; "destination"; "departure_date"; "adults"; "cabin_class"]
  /\ fst (invoke (R := Reference.runtime) HttpServer "search_flight_options" flight_request
            documented_flights)
     = Completed (Failure InternalError
         "Flight search failed: search_flights() got an unexpected keyword argument 'departure_date'").
Proof.
  split; [cbn; tauto | ].
  split; [cbn; tauto | ].
  split; [reflexivity | ].
  split; [cbn; intuition discriminate | reflexivity].
Qed.

(** ** Empty results *)



(** ** Text built piece by piece *)

Lemma append_assoc (a b c : string) : (a ++ b) ++ c = a ++ (b ++ c).
Proof. induction a as [ | x a IH]; cbn; [reflexivity | now rewrite IH]. Qed.

Lemma append_nil_l (a : string) : "" ++ a = a.
Proof. reflexivity. Qed.

Lemma append_nil_r (a : string) : a ++ "" = a.
Proof. induction a as [ | x a IH]; cbn; [reflexivity | now rewrite IH]. Qed.

Lemma concat_cons (part : string) (parts : list string) :
  String.concat "" (part :: parts) = part ++ String.concat "" parts.
Proof. destruct parts; cbn; [now rewrite append_nil_r | reflexivity]. Qed.

Lemma ok_injective {A : Type} (x y : A) : @inr exn A x = inr y -> x = y.
Proof. congruence. Qed.

(** A loop whose body only appends to the response appends the pieces of
    all its items. *)
Lemma for_each_appends {A : Type} (body : string -> A -> Res string) (xs : list A) :
  (forall response x, body response x = piece <~ body "" x ;; ok (response ++ piece)) ->
  forall response,
    for_each xs body response
    = pieces <~ collect (body "") xs ;; ok (response ++ String.concat "" pieces).
Proof.
  intros Appends. induction xs as [ | x xs IH]; intros response; cbn.
  - now rewrite append_nil_r.
  - rewrite (Appends response x). unfold res_bind at 1 3.
    destruct (body "" x) as [e | piece]; [reflexivity | ].
    unfold ok at 1. cbn. rewrite IH. unfold res_bind.
    destruct (collect (body "") xs) as [e | pieces]; [reflexivity | ].
    unfold ok. now rewrite concat_cons, append_assoc.
Qed.



Lemma collect_Forall2 {A B : Type} (f : A -> Res B) (xs : list A) (ys : list B) :
  collect f xs = inr ys <-> Forall2 (fun x y => f x = inr y) xs ys.
Proof.
  revert ys. induction xs as [ | x xs IH]; intros ys; cbn.
  - split; [intros E; inversion E; constructor | intros F; now inversion F].
  - unfold res_bind, ok. split.
    + destruct (f x) as [e | y] eqn:Fx; [discriminate | ].
      destruct (collect f xs) as [e | ys'] eqn:C; [discriminate | ].
      intros E; inversion E; subst. constructor; [exact Fx | now apply IH].
    + intros F; inversion F as [ | x' y xs' ys' Fx Rest]; subst.
      rewrite Fx. apply IH in Rest. now rewrite Rest.
Qed.


(** ** The weather forecast *)

Section Weather.
Context {R : Runtime}.






End Weather.



(** The text of that example: the header and three days of detail. *)
Example london_three_days :
  fst (invoke (R := Reference.runtime) HttpServer "get_weather"
         [("location", VStr "London"); ("days", VInt 3)] london_weather)
  = Completed (Success (Formatted
      (Http.g_sun_cloud ++ " **Weather Forecast for London**" ++ nl ++ nl
       ++ "**2024-06-01**: 18" ++ Http.g_degree ++ "/11" ++ Http.g_degree ++ " - Light rain"
       ++ nl ++ "  " ++ Http.g_rain_cloud ++ " *Recommend indoor activities*" ++ nl ++ nl
       ++ "**2024-06-02**: 24" ++ Http.g_degree ++ "/14" ++ Http.g_degree ++ " - Sunny"
       ++ nl ++ "  " ++ Http.g_sun ++ " *Perfect for outdoor activities*" ++ nl ++ nl
       ++ "**2024-06-03**: 20" ++ Http.g_degree ++ "/13" ++ Http.g_degree ++ " - Cloudy"
       ++ nl ++ nl))).
Proof. reflexivity. Qed.



(** A negative [days] is taken as Python's slices take it: [days = -4]
    keeps all but the last four days. *)
Example london_minus_four_days :
  fst (invoke (R := Reference.runtime) HttpServer "get_weather"
         [("location", VStr "London"); ("days", VInt (-4))] london_weather)
  = Completed (Success (Formatted
      (Http.g_sun_cloud ++ " **Weather Forecast for London**" ++ nl ++ nl
       ++ "**2024-06-01**: 18" ++ Http.g_degree ++ "/11" ++ Http.g_degree ++ " - Light rain"
       ++ nl ++ "  " ++ Http.g_rain_cloud ++ " *Recommend indoor activities*" ++ nl ++ nl))).
Proof. reflexivity. Qed.

(** Ten days asked of the five-day stub: all five days are shown. *)
Example london_ten_days :
  fst (invoke (R := Reference.runtime) HttpServer "get_weather"
         [("location", VStr "London"); ("days", VInt 10)] london_weather)
  = Completed (Success (Formatted
      (Http.g_sun_cloud ++ " **Weather Forecast for London**" ++ nl ++ nl
       ++ "**2024-06-01**: 18" ++ Http.g_degree ++ "/11" ++ Http.g_degree ++ " - Light rain"
       ++ nl ++ "  " ++ Http.g_rain_cloud ++ " *Recommend indoor activities*" ++ nl ++ nl
       ++ "**2024-06-02**: 24" ++ Http.g_degree ++ "/14" ++ Http.g_degree ++ " - Sunny"
       ++ nl ++ "  " ++ Http.g_sun ++ " *Perfect for outdoor activities*" ++ nl ++ nl
       ++ "**2024-06-03**: 20" ++ Http.g_degree ++ "/13" ++ Http.g_degree ++ " - Cloudy"
       ++ nl ++ nl
       ++ "**2024-06-04**: 1" ++ Http.g_degree ++ "/-3" ++ Http.g_degree ++ " - Snow showers"
       ++ nl ++ "  " ++ Http.g_snowflake ++ " *Pack warm clothes, check transport*" ++ nl ++ nl
       ++ "**2024-06-05**: 22" ++ Http.g_degree ++ "/12" ++ Http.g_degree ++ " - Clear sky"
       ++ nl ++ "  " ++ Http.g_sun ++ " *Perfect for outdoor activities*" ++ nl ++ nl))).
Proof. reflexivity. Qed.

(** ** The flight search *)

Section Flights.
Context {R : Runtime}.

Lemma flight_entry_appends (response : string) (item : Z * value) :
  Http.flight_entry response item
  = piece <~ Http.flight_entry "" item ;; ok (response ++ piece).
Proof.
  destruct item as [i flight]. unfold Http.flight_entry.
  repeat match goal with
    | |- context [get flight ?k ?d] =>
        destruct (get flight k d); [reflexivity | ]; cbn [res_bind]
    end.
  unfold ok. cbn [res_bind]. f_equal.
  rewrite ?append_nil_l, ?append_assoc. reflexivity.
Qed.

Lemma flights_invoked (origin destination departure_date return_date adults cabin_class : value)
    (env : Env) :
  invoke HttpServer "search_flight_options"
    (flight_arguments origin destination departure_date return_date adults cabin_class) env
  = (outcome_of
       (fst (formatted (Http.search_flight_options origin destination departure_date
                          return_date adults cabin_class) env (started HttpServer))),
     asked env [call search_flights [] [
                  ("origin", origin); ("destination", destination);
                  ("departure_date", departure_date); ("adults", adults);
                  ("cabin_class", cabin_class)]]).
Proof.
  now rewrite (invoke_found HttpServer "search_flight_options" Http.search_flight_options_tool).
Qed.

(** The text of a flight search that found something ends its header line
    with the trip label. *)
Lemma flights_text_label (origin destination departure_date return_date adults cabin_class
    flights : value) (response : string) :
  truthy flights = true ->
  Http.flights_text origin destination departure_date return_date adults cabin_class flights
  = inr response ->
  exists before after,
    response = before ++ " | " ++ trip_label return_date ++ nl ++ nl ++ after.
Proof.
  intros Found. unfold Http.flights_text. rewrite Found. cbn [negb].
  destruct (title cabin_class) as [e | cabin]; [discriminate | ]. cbn [res_bind].
  destruct (slice flights (VInt 6)) as [e | shown]; [discriminate | ]. cbn [res_bind].
  destruct (iterate shown) as [e | items]; [discriminate | ]. cbn [res_bind].
  rewrite (for_each_appends Http.flight_entry _ flight_entry_appends).
  destruct (collect _ _) as [e | pieces]; [discriminate | ]. cbn [res_bind].
  unfold ok. intros E. apply ok_injective in E. subst response.
  fold (trip_label return_date).
  exists (Http.g_plane ++ " **Flight Options: " ++ str origin ++ " " ++ Http.g_arrow ++ " "
            ++ str destination ++ "**" ++ nl ++ Http.g_calendar ++ " " ++ str departure_date
            ++ " | " ++ Http.g_people ++ " " ++ str adults ++ " adult(s) | " ++ Http.g_ticket
            ++ " " ++ cabin).
  exists (String.concat "" pieces).
  rewrite !append_assoc. reflexivity.
Qed.

End Flights.

(** C9: [search_flight_options] does not pass [return_date] on: its one
    provider call carries origin, destination, departure_date, adults and
    cabin_class and nothing else.  The result depends on [return_date]
    only through its truth value, which decides between the labels "Round
    Trip" and "One Way" at the end of the header line. *)
Theorem return_date_only_labels_the_trip {R : Runtime} :
  forall (origin destination departure_date return_date adults cabin_class : value)
         (env : Env),
    snd (invoke HttpServer "search_flight_options"
           (flight_arguments origin destination departure_date return_date adults
              cabin_class) env)
    = [call search_flights [] [
         ("origin", origin); ("destination", destination);
         ("departure_date", departure_date); ("adults", adults);
         ("cabin_class", cabin_class)]]
    /\ (forall other : value,
          truthy other = truthy return_date ->
          invoke HttpServer "search_flight_options"
            (flight_arguments origin destination departure_date other adults cabin_class) env
          = invoke HttpServer "search_flight_options"
              (flight_arguments origin destination departure_date return_date adults
                 cabin_class) env)
    /\ (forall (flights : value) (response : string),
          respond env (call search_flights [] [
                         ("origin", origin); ("destination", destination);
                         ("departure_date", departure_date); ("adults", adults);
                         ("cabin_class", cabin_class)]) = inr flights ->
          truthy flights = true ->
          fst (invoke HttpServer "search_flight_options"
                 (flight_arguments origin destination departure_date return_date adults
                    cabin_class) env)
          = Completed (Success (Formatted response)) ->
          exists before after,
            response = before ++ " | " ++ trip_label return_date ++ nl ++ nl ++ after).
Proof.
  intros origin destination departure_date return_date adults cabin_class env.
  split; [ | split].
  - rewrite flights_invoked. cbn. now destruct (respond env _).
  - intros other Same. rewrite !flights_invoked. f_equal.
    open_handler. destruct (respond env _) as [e | flights]; [reflexivity | ].
    unfold Http.flights_text. now rewrite Same.
  - intros flights response Answer Found. rewrite flights_invoked. cbn [fst].
    open_handler. unfold call in Answer. rewrite Answer.
    destruct (Http.flights_text _ _ _ _ _ _ flights) as [e | text] eqn:T.
    + destruct (is_Exception e); cbn; [discriminate | ].
      destruct e; discriminate.
    + cbn. intros E. inversion E; subst text.
      now apply flights_text_label with origin destination departure_date adults
                  cabin_class flights.
Qed.

Lemma return_date_only_labels_the_trip_witness :
  exists before after,
    Http.g_plane ++ " **Flight Options: NYC " ++ Http.g_arrow ++ " LAX**" ++ nl
      ++ Http.g_calendar ++ " 2024-12-15 | " ++ Http.g_people ++ " 1 adult(s) | "
      ++ Http.g_ticket ++ " Economy | Round Trip" ++ nl ++ nl
      ++ "**1. Delta**" ++ nl
      ++ "   " ++ Http.g_money ++ " $320 | " ++ Http.g_clock ++ " TBD " ++ Http.g_arrow
      ++ " TBD (N/A)" ++ nl
      ++ "   " ++ Http.g_plane ++ " 0 stop(s)" ++ nl ++ nl
      ++ "**2. United**" ++ nl
      ++ "   " ++ Http.g_money ++ " $295 | " ++ Http.g_clock ++ " TBD " ++ Http.g_arrow
      ++ " TBD (N/A)" ++ nl
      ++ "   " ++ Http.g_plane ++ " 1 stop(s)" ++ nl ++ nl
    = before ++ " | " ++ trip_label (VStr "2024-12-22") ++ nl ++ nl ++ after.
Proof.
  apply (proj2 (proj2 (return_date_only_labels_the_trip (R := Reference.runtime)
                         (VStr "NYC") (VStr "LAX") (VStr "2024-12-15") (VStr "2024-12-22")
                         (VInt 1) (VStr "economy") two_flights))
           (VList [VDict [("airline", VStr "Delta"); ("price", VInt 320)];
                   VDict [("airline", VStr "United"); ("price", VInt 295);
                          ("stops", VInt 1)]])).
  - reflexivity.
  - reflexivity.
  - reflexivity.
Defined.

(** ** Travel requirements *)

Section Requirements.
Context {R : Runtime}.

Lemma get_field (record : list (string * value)) (key : string) (default : value) :
  get (VDict record) key default = inr (field record key default).
Proof. reflexivity. Qed.




End Requirements.



(** The text of that example. *)
Example japan_requirements :
  fst (invoke (R := Reference.runtime) HttpServer "check_travel_requirements"
         (countries (VStr "United States") (VStr "Japan")) japan_stubs)
  = Completed (Success (Formatted
      (Http.g_clipboard ++ " **Travel Requirements: United States " ++ Http.g_arrow
       ++ " Japan**" ++ nl ++ nl
       ++ Http.g_passport ++ " **Visa Requirements:**" ++ nl
       ++ "   " ++ Http.g_check ++ " No visa required for tourist visits" ++ nl
       ++ "   " ++ Http.g_calendar ++ " Max Stay: 90 days" ++ nl ++ nl
       ++ Http.g_warning ++ " **Safety Advisory:**" ++ nl
       ++ "   " ++ Http.g_siren ++ " Level: Level 1: Exercise normal precautions" ++ nl
       ++ "   " ++ Http.g_bullet ++ " Typhoon season runs from May to October" ++ nl
       ++ "   " ++ Http.g_calendar ++ " Last Updated: 2024-05-01" ++ nl ++ nl
       ++ Http.g_info ++ " **Note**: Always verify current requirements with official embassy sources before travel."))).
Proof. reflexivity. Qed.

(* ===================================================================== *)
(** * Part 6, continued: further properties of the code                   *)
(* ===================================================================== *)

(** Goes through the steps of a loop body that appends to the response. *)
Ltac split_entry :=
  repeat match goal with
    | |- context [get ?d ?k ?v] => destruct (get d k v); cbn [res_bind]
    | |- context [if truthy ?v then _ else _] => destruct (truthy v)
    | |- context [if (?x <? ?y)%Z then _ else _] => destruct (x <? y)%Z
    | |- context [len ?v] => destruct (len v); cbn [res_bind]
    | |- context [slice ?v ?n] => destruct (slice v n); cbn [res_bind]
    | |- context [add_suffix ?v ?n] => destruct (add_suffix v n); cbn [res_bind]
    | |- context [join ?v ?n] => destruct (join v n); cbn [res_bind]
    | |- context [greater ?v ?n] => destruct (greater v n); cbn [res_bind]
    | |- context [if ?b then _ else _] => is_var b; destruct b
    end;
  unfold ok; cbn [res_bind]; try reflexivity;
  f_equal; rewrite ?append_nil_l, ?append_assoc; reflexivity.

Section Listings.
Context {R : Runtime}.

Lemma invoke_bound (s : server) (name : string) (t : ToolEntry) (arguments a : Arguments)
    (env : Env) :
  find_tool name (tools_of s) = Some t ->
  bind_arguments t arguments = inr a ->
  invoke s name arguments env
  = (outcome_of (fst (run_handler (t_handler t) a env (started s))),
     match plan (t_handler t) a with
     | inr p => asked env p
     | inl _ => []
     end).
Proof.
  intros F B. rewrite (invoke_found s name t arguments env F).
  unfold calls_of, dispatch, bind, attempt. now rewrite B.
Qed.

(** A listing of [items[:cap]]. *)
Lemma listing_of_slice (entry : string -> Z * value -> Res string) (cap : Z)
    (items : list value) (response : string) :
  (forall r item, entry r item = piece <~ entry "" item ;; ok (r ++ piece)) ->
  (shown <~ slice (VList items) (VInt cap) ;;
   shown <~ iterate shown ;;
   for_each (enumerate 1 shown) entry response)
  = pieces <~ numbered entry (slice_to cap items) ;;
    ok (response ++ String.concat "" pieces).
Proof.
  intros Appends. unfold slice. cbn [res_bind ok iterate].
  now rewrite (for_each_appends entry _ Appends).
Qed.

Lemma slice_to_first {A : Type} (cap : Z) (xs : list A) :
  (0 <= cap)%Z -> slice_to cap xs = firstn (Z.to_nat cap) xs.
Proof. intros Positive. unfold slice_to. apply Z.leb_le in Positive. now rewrite Positive. Qed.


Lemma slice_to_length {A : Type} (cap : Z) (xs : list A) :
  Z.of_nat (length (slice_to cap xs))
  = if (0 <=? cap)%Z then Z.min cap (Z.of_nat (length xs))
    else Z.max 0 (Z.of_nat (length xs) + cap).
Proof.
  unfold slice_to. destruct (0 <=? cap)%Z eqn:Sign; rewrite length_firstn.
  - apply Z.leb_le in Sign. lia.
  - apply Z.leb_gt in Sign. lia.
Qed.

Lemma enumerate_length {A : Type} (start : Z) (xs : list A) :
  length (enumerate start xs) = length xs.
Proof.
  revert start. induction xs as [ | x xs IH]; intros start; cbn;
    [reflexivity | now rewrite IH].
Qed.

Lemma numbered_length (entry : string -> Z * value -> Res string) (items : list value)
    (pieces : list string) :
  numbered entry items = inr pieces -> length pieces = length items.
Proof.
  unfold numbered. intros C. apply collect_Forall2 in C. apply Forall2_length in C.
  now rewrite <- C, enumerate_length.
Qed.


End Listings.

Section Hotels.
Context {R : Runtime}.


End Hotels.



Section FlightList.
Context {R : Runtime}.


End FlightList.



Section RestaurantList.
Context {R : Runtime}.






End RestaurantList.



Section PlaceList.
Context {R : Runtime}.

Lemma place_entry_appends (response : string) (item : Z * value) :
  Http.place_entry response item
  = piece <~ Http.place_entry "" item ;; ok (response ++ piece).
Proof. destruct item as [i x]. unfold Http.place_entry. split_entry. Qed.

Lemma places_text_of_list (a : Arguments) (limit : Z) (query : string) (items : list value) :
  items <> [] ->
  arg a "limit" = VInt limit ->
  optional_text (arg a "activity_type") ->
  Http.places_text (arg a "destination") (arg a "activity_type") (arg a "limit") query
    (VList items)
  = pieces <~ numbered Http.place_entry (slice_to limit items) ;;
    ok (places_header a ++ String.concat "" pieces).
Proof.
  intros Found Limit Category. unfold Http.places_text, places_header.
  destruct items as [ | place rest]; [congruence | ]. cbn [truthy negb].
  rewrite Limit.
  destruct Category as [-> | [category ->]]; cbn [truthy title res_bind ok];
    [ | destruct (String.eqb category ""); cbn [negb res_bind ok] ];
    cbv zeta;
    rewrite (listing_of_slice Http.place_entry limit) by apply place_entry_appends;
    (destruct (numbered _ _) as [e | pieces]; [reflexivity | ]); cbn [res_bind]; unfold ok;
    f_equal; rewrite ?append_assoc, ?append_nil_l; reflexivity.
Qed.

End PlaceList.

(** X4: [discover_places] of [mcp_http_server.py] shows the places
    [places[:limit]] of a non-empty answer, numbered from 1, under a
    heading that names the category when one was asked for: the first
    [limit] places when [limit] is not negative (none for 0, all of them
    when there are fewer), all but the last [-limit] when it is
    negative.  The limit is not checked against any range. *)
Theorem places_are_limited {R : Runtime} :
  forall (arguments a : Arguments) (c : ProviderCall) (env : Env) (items : list value)
         (limit : Z),
    bind_arguments Http.discover_places_tool arguments = inr a ->
    plan Http_discover_places a = inr [c] ->
    respond env c = inr (VList items) ->
    items <> [] ->
    arg a "limit" = VInt limit ->
    optional_text (arg a "activity_type") ->
    forall pieces : list string,
      numbered Http.place_entry (slice_to limit items) = inr pieces ->
      invoke HttpServer "discover_places" arguments env
      = (Completed (Success (Formatted (places_header a ++ String.concat "" pieces))), [c])
      /\ Z.of_nat (length pieces)
         = (if (0 <=? limit)%Z then Z.min limit (Z.of_nat (length items))
            else Z.max 0 (Z.of_nat (length items) + limit)).
Proof.
  intros arguments a c env items limit B P Answer Found Limit Category pieces Pieces.
  rewrite (invoke_bound HttpServer "discover_places" Http.discover_places_tool
             arguments a env eq_refl B).
  cbn [t_handler Http.discover_places_tool fastmcp_tool]. rewrite P.
  cbn in P. apply ok_injective in P. injection P as <-.
  cbn [asked]. open_handler. unfold call in Answer. rewrite Answer.
  rewrite (places_text_of_list a limit) by assumption. rewrite Pieces.
  split; [reflexivity | ].
  rewrite (numbered_length _ _ _ Pieces). apply slice_to_length.
Qed.

Lemma places_are_limited_witness :
  invoke (R := Reference.runtime) HttpServer "discover_places" rome_request
    (answering (VList rome_places))
  = (Completed (Success (Formatted
       (places_header (R := Reference.runtime) rome_request
          ++ String.concat "" rome_entries))),
     [rome_search])
  /\ Z.of_nat (length rome_entries)
     = (if (0 <=? 5)%Z then Z.min 5 (Z.of_nat (length rome_places))
        else Z.max 0 (Z.of_nat (length rome_places) + 5)).
Proof.
  apply (places_are_limited (R := Reference.runtime) rome_request rome_request rome_search
           (answering (VList rome_places)) rome_places 5);
    try reflexivity; [discriminate | right; eexists; reflexivity].
Defined.

Section MinimalLists.
Context {R : Runtime}.






End MinimalLists.





Section MinimalWeather.
Context {R : Runtime}.








End MinimalWeather.



(** ** Bound arguments *)

Lemma bind_keywords_bound (fn : string) (params : list Param) (arguments : Arguments) :
  (forall p, In p (required_of params) -> has_key p arguments = true) ->
  (forall kv, In kv arguments -> declares params (fst kv) = true) ->
  bind_keywords fn params arguments
  = inr (map (fun p => (p_name p,
                        match lookup (p_name p) arguments, p_default p with
                        | Some v, _ => v
                        | None, Some default => default
                        | None, None => VNone
                        end)) params).
Proof.
  intros Req Decl. unfold bind_keywords.
  rewrite find_all_false.
  - rewrite filter_all_false; [reflexivity | ].
    intros p I. destruct (is_required p) eqn:Q; [ | reflexivity].
    rewrite Req; [reflexivity | ]. apply required_of_spec. now exists p.
  - intros kv I. now rewrite Decl.
Qed.

Lemma fastmcp_bound (t : ToolEntry) (arguments : Arguments) :
  t_var_keywords t = false ->
  t_required t = required_of (t_params t) ->
  passes_validation t arguments ->
  bind_arguments t arguments
  = inr (map (fun p => (p_name p,
                        match lookup (p_name p) arguments, p_default p with
                        | Some v, _ => v
                        | None, Some default => default
                        | None, None => VNone
                        end)) (t_params t)).
Proof.
  intros V Q [Req Decl]. unfold bind_arguments. rewrite V.
  apply bind_keywords_bound; [now rewrite <- Q | now apply Decl].
Qed.

(** X8: for every request that passes validation, [plan_trip] makes one
    provider call, [generate_itinerary] with a single record of eleven
    entries: the nine arguments under their own names (an optional
    argument the request leaves out with its default: adults 1, budget
    None, activities [], accommodation_type None, dietary_restrictions
    []), then [avoid_bad_weather] True and [language] "en", whatever the
    request asks. *)
Theorem plan_trip_forwards_the_request {R : Runtime} :
  forall (arguments : Arguments) (env : Env),
    passes_validation Http.plan_trip_tool arguments ->
    snd (invoke HttpServer "plan_trip" arguments env)
    = [call generate_itinerary [itinerary_request arguments] []].
Proof.
  intros arguments env Valid.
  rewrite (invoke_bound HttpServer "plan_trip" Http.plan_trip_tool arguments _ env eq_refl
             (fastmcp_bound Http.plan_trip_tool arguments eq_refl eq_refl Valid)).
  cbn [snd t_handler Http.plan_trip_tool fastmcp_tool plan ok asked].
  unfold itinerary_request, field, Http.trip_payload. cbn.
  destruct (respond env _); reflexivity.
Qed.

Lemma plan_trip_forwards_the_request_witness :
  snd (invoke (R := Reference.runtime) HttpServer "plan_trip" paris_request silent)
  = [call generate_itinerary [itinerary_request paris_request] []].
Proof.
  apply (plan_trip_forwards_the_request (R := Reference.runtime) paris_request silent).
  split.
  - intros p [<- | [<- | [<- | [<- | []]]]]; reflexivity.
  - intros _ kv [<- | [<- | [<- | [<- | [<- | [<- | [<- | []]]]]]]]; reflexivity.
Defined.

Section TripPlan.
Context {R : Runtime}.

Lemma trip_plan_bare (a : Arguments) (items : list (string * value)) :
  truthy (field items "estimated_cost" VNone) = false ->
  lookup "trip_data" items = None ->
  truthy (field items "itinerary" (VList [])) = false ->
  Http.trip_plan (arg a "origin") (arg a "destination") (arg a "start_date")
    (arg a "end_date") (arg a "adults") (VDict items)
  = inr (bare_plan a).
Proof.
  intros Cost Data Itinerary. unfold Http.trip_plan. cbv zeta.
  rewrite !get_field. unfold field at 1. rewrite Data. cbn [res_bind].
  rewrite Cost. cbn [res_bind ok]. rewrite !get_field. cbn [field lookup res_bind].
  assert (Cut3 : slice (VList []) (VInt 3) = inr (VList [])) by reflexivity.
  assert (Cut5 : slice (VList []) (VInt 5) = inr (VList [])) by reflexivity.
  rewrite !Cut3, !Cut5. cbn [res_bind truthy ok]. rewrite Itinerary. cbn [res_bind orb].
  unfold bare_plan, ok. cbn [res_bind]. f_equal. rewrite ?append_assoc. reflexivity.
Qed.

Lemma trip_plan_needs_a_record (a : Arguments) (result : value) :
  is_record result = false ->
  Http.trip_plan (arg a "origin") (arg a "destination") (arg a "start_date")
    (arg a "end_date") (arg a "adults") result
  = inl (Fault (NoAttribute result "get")).
Proof. intros Shape. unfold Http.trip_plan. now destruct result. Qed.

Lemma trip_plan_needs_trip_data (a : Arguments) (items : list (string * value))
    (trip_data : value) :
  truthy (field items "estimated_cost" VNone) = false ->
  lookup "trip_data" items = Some trip_data ->
  is_record trip_data = false ->
  Http.trip_plan (arg a "origin") (arg a "destination") (arg a "start_date")
    (arg a "end_date") (arg a "adults") (VDict items)
  = inl (Fault (NoAttribute trip_data "get")).
Proof.
  intros Cost Data Shape. unfold Http.trip_plan. cbv zeta.
  rewrite !get_field. unfold field at 1. rewrite Data. cbn [res_bind].
  rewrite Cost. cbn [res_bind ok]. now destruct trip_data.
Qed.

End TripPlan.

(** X9: [plan_trip] needs a record from its provider.  An answer that is
    not a record (None, a list, a text) ends in an InternalError failure
    about the missing attribute [get], not in a message that nothing was
    found; so does a record whose [trip_data] is present but not a record.
    A record without [trip_data], estimated cost and itinerary gives the
    bare plan: the heading, the dates, the travellers and the closing
    line. *)
Theorem trip_data_must_be_a_record {R : Runtime} :
  forall (arguments a : Arguments) (c : ProviderCall) (env : Env) (result : value),
    bind_arguments Http.plan_trip_tool arguments = inr a ->
    plan Http_plan_trip a = inr [c] ->
    respond env c = inr result ->
    (is_record result = false ->
     fst (invoke HttpServer "plan_trip" arguments env)
     = Completed (Failure InternalError
         ("Trip planning failed: " ++ fault_message (NoAttribute result "get"))))
    /\ (forall items : list (string * value),
          result = VDict items ->
          truthy (field items "estimated_cost" VNone) = false ->
          (lookup "trip_data" items = None ->
           truthy (field items "itinerary" (VList [])) = false ->
           fst (invoke HttpServer "plan_trip" arguments env)
           = Completed (Success (Formatted (bare_plan a))))
          /\ (forall trip_data : value,
                lookup "trip_data" items = Some trip_data ->
                is_record trip_data = false ->
                fst (invoke HttpServer "plan_trip" arguments env)
                = Completed (Failure InternalError
                    ("Trip planning failed: "
                       ++ fault_message (NoAttribute trip_data "get"))))).
Proof.
  intros arguments a c env result B P Answer.
  rewrite (invoke_bound HttpServer "plan_trip" Http.plan_trip_tool arguments a env eq_refl B).
  cbn [fst t_handler Http.plan_trip_tool fastmcp_tool].
  cbn in P. apply ok_injective in P. injection P as <-.
  open_handler. unfold call in Answer. rewrite Answer.
  split.
  - intros Shape. now rewrite trip_plan_needs_a_record.
  - intros items -> Cost. split.
    + intros Data Itinerary. now rewrite trip_plan_bare.
    + intros trip_data Data Shape. now rewrite (trip_plan_needs_trip_data a items trip_data).
Qed.

Lemma trip_data_must_be_a_record_witness :
  (is_record VNone = false ->
   fst (invoke (R := Reference.runtime) HttpServer "plan_trip" paris_request silent)
   = Completed (Failure InternalError
       ("Trip planning failed: "
          ++ fault_message (Runtime := Reference.runtime) (NoAttribute VNone "get"))))
  /\ (forall items : list (string * value),
        VNone = VDict items ->
        truthy (field items "estimated_cost" VNone) = false ->
        (lookup "trip_data" items = None ->
         truthy (field items "itinerary" (VList [])) = false ->
         fst (invoke (R := Reference.runtime) HttpServer "plan_trip" paris_request silent)
         = Completed (Success (Formatted (bare_plan (R := Reference.runtime) paris_bound))))
        /\ (forall trip_data : value,
              lookup "trip_data" items = Some trip_data ->
              is_record trip_data = false ->
              fst (invoke (R := Reference.runtime) HttpServer "plan_trip" paris_request
                     silent)
              = Completed (Failure InternalError
                  ("Trip planning failed: "
                     ++ fault_message (Runtime := Reference.runtime)
                          (NoAttribute trip_data "get"))))).
Proof.
  apply (trip_data_must_be_a_record (R := Reference.runtime) paris_request paris_bound
           paris_search silent VNone);
    reflexivity.
Defined.



(** ** The stdio server *)

Section StdioFacts.
Context {R : Runtime}.



End StdioFacts.



Section SameCalls.
Context {R : Runtime}.


End SameCalls.



Section MinimalRequirements.
Context {R : Runtime}.



End MinimalRequirements.



(** ** Authentication *)

(** X14: once the module-level configuration has passed its two
    assertions, [load_access_token] of either HTTP server grants access to
    exactly one bearer token: the value of AUTH_TOKEN when that is set and
    not empty, the value of MCP_BEARER_TOKEN otherwise.  The grant carries
    the presented token, the client id "puch-client" and the scope "*".
    The assertions only rule out a token that is None: an empty
    MCP_BEARER_TOKEN is accepted as the token. *)
Theorem bearer_token_is_the_configured_one :
  forall (environ : Environ) (token number bearer : string),
    config environ = Configured token number ->
    ((exists grant, Http.load_access_token token bearer = Some grant)
     <-> accepted environ bearer)
    /\ ((exists grant, Minimal.load_access_token token bearer = Some grant)
        <-> accepted environ bearer)
    /\ (forall grant,
          Http.load_access_token token bearer = Some grant
          \/ Minimal.load_access_token token bearer = Some grant ->
          lookup "token" grant = Some (VStr bearer)
          /\ lookup "client_id" grant = Some (VStr "puch-client")
          /\ lookup "scopes" grant = Some (VList [VStr "*"])).
Proof.
  intros environ token number bearer Config.
  assert (Accepted : accepted environ bearer <-> bearer = token).
  { revert Config. unfold config, accepted, or_else.
    destruct (environ_get environ "AUTH_TOKEN") as [preferred | ].
    - destruct (String.eqb preferred "").
      + destruct (environ_get environ "MCP_BEARER_TOKEN") as [other | ]; [ | discriminate].
        destruct (environ_get environ "MY_NUMBER"); [ | discriminate].
        intros E. inversion E; subst. split; congruence.
      + destruct (environ_get environ "MY_NUMBER"); [ | discriminate].
        intros E. inversion E; subst. tauto.
    - destruct (environ_get environ "MCP_BEARER_TOKEN") as [other | ]; [ | discriminate].
      destruct (environ_get environ "MY_NUMBER"); [ | discriminate].
      intros E. inversion E; subst. split; congruence. }
  unfold Http.load_access_token, Minimal.load_access_token.
  destruct (String.eqb bearer token) eqn:Same.
  - apply String.eqb_eq in Same. split; [ | split].
    + split; [intros _; now apply Accepted | intros _; eexists; reflexivity].
    + split; [intros _; now apply Accepted | intros _; eexists; reflexivity].
    + intros grant [E | E]; inversion E; repeat split.
  - apply String.eqb_neq in Same. split; [ | split].
    + split; [intros [grant E]; discriminate E | intros A; apply Accepted in A; contradiction].
    + split; [intros [grant E]; discriminate E | intros A; apply Accepted in A; contradiction].
    + intros grant [E | E]; discriminate E.
Qed.

Lemma bearer_token_is_the_configured_one_witness :
  ((exists grant, Http.load_access_token "" "" = Some grant) <-> accepted empty_token "")
  /\ ((exists grant, Minimal.load_access_token "" "" = Some grant)
      <-> accepted empty_token "")
  /\ (forall grant,
        Http.load_access_token "" "" = Some grant
        \/ Minimal.load_access_token "" "" = Some grant ->
        lookup "token" grant = Some (VStr "")
        /\ lookup "client_id" grant = Some (VStr "puch-client")
        /\ lookup "scopes" grant = Some (VList [VStr "*"])).
Proof.
  apply (bearer_token_is_the_configured_one empty_token "" "" ""). reflexivity.
Defined.

(** ** Fetching *)

Section Fetching.
Context {W : Http.Fetch.Web}.

Lemma gather_first (num_results : Z) (hrefs links : list string) :
  (Z.of_nat (length links) < num_results)%Z ->
  Http.Fetch.gather num_results hrefs links
  = (links ++ firstn (Z.to_nat num_results - length links)
                (filter (contains "http") hrefs))%list.
Proof.
  revert links. induction hrefs as [ | href rest IH]; intros links Room; cbn [Http.Fetch.gather filter].
  - now rewrite firstn_nil, app_nil_r.
  - destruct (contains "http" href).
    + destruct (num_results <=? Z.of_nat (length (links ++ [href])))%Z eqn:Full.
      * apply Z.leb_le in Full. rewrite length_app in Full. cbn in Full.
        replace (Z.to_nat num_results - length links)%nat with 1%nat by lia.
        reflexivity.
      * apply Z.leb_gt in Full. rewrite IH by exact Full.
        rewrite length_app in *. cbn [length] in *.
        replace (Z.to_nat num_results - length links)%nat
          with (S (Z.to_nat num_results - (length links + 1)))%nat by lia.
        cbn [firstn]. now rewrite <- app_assoc.
    + destruct (num_results <=? Z.of_nat (length links))%Z eqn:Full; [ | now apply IH].
      apply Z.leb_le in Full. lia.
Qed.

End Fetching.

(** X15: [Fetch.google_search_links] never returns an empty list.  When
    the search page is not answered with status 200 it returns the marker
    "Failed to perform search."; otherwise, for [num_results] of 1 or
    more, the first [num_results] result links in which "http" occurs, in
    page order, or the marker "No results found." when there is none.
    For [num_results] of 0 or less the loop still looks at the first
    anchor, so one item is returned: that link, or the marker. *)
Theorem search_links_are_bounded {W : Http.Fetch.Web} :
  forall (query : string) (num_results : Z) (resp : Http.Fetch.Response),
    Http.Fetch.client_get (search_request query) = Http.Fetch.Answered resp ->
    (Http.Fetch.status_code resp <> 200%Z ->
     Http.Fetch.google_search_links query num_results = inr search_failed)
    /\ (forall hrefs : list string,
          Http.Fetch.status_code resp = 200%Z ->
          Http.Fetch.result_links (Http.Fetch.text resp) = inr hrefs ->
          exists links : list string,
            Http.Fetch.google_search_links query num_results = inr links
            /\ links <> []
            /\ ((1 <= num_results)%Z ->
                links = match firstn (Z.to_nat num_results)
                                (filter (contains "http") hrefs) with
                        | [] => no_results
                        | found => found
                        end)
            /\ ((num_results <= 0)%Z ->
                links = match hrefs with
                        | href :: _ => if contains "http" href then [href] else no_results
                        | [] => no_results
                        end)).
Proof.
  intros query num_results resp Reply. unfold Http.Fetch.google_search_links.
  fold (search_request query). rewrite Reply. split.
  - intros Status. apply Z.eqb_neq in Status. now rewrite Status.
  - intros hrefs Status Links. rewrite Status, Links. cbn [Z.eqb Pos.eqb negb res_bind].
    eexists. split; [reflexivity | ]. split; [ | split].
    + now destruct (Http.Fetch.gather num_results hrefs []).
    + intros Some_results. rewrite gather_first by (cbn; lia). cbn [app length].
      rewrite Nat.sub_0_r. now destruct (firstn _ _).
    + intros None_wanted. destruct hrefs as [ | href rest]; [reflexivity | ].
      cbn [Http.Fetch.gather]. destruct (contains "http" href); cbn [app length].
      * assert (Full : (num_results <=? Z.of_nat 1)%Z = true) by (apply Z.leb_le; lia).
        now rewrite Full.
      * assert (Full : (num_results <=? Z.of_nat 0)%Z = true) by (apply Z.leb_le; lia).
        now rewrite Full.
Qed.

Lemma search_links_are_bounded_witness :
  (Http.Fetch.status_code result_page <> 200%Z ->
   Http.Fetch.google_search_links (W := stub_web) "rome museums" 1 = inr search_failed)
  /\ (forall hrefs : list string,
        Http.Fetch.status_code result_page = 200%Z ->
        Http.Fetch.result_links (Web := stub_web) (Http.Fetch.text result_page) = inr hrefs ->
        exists links : list string,
          Http.Fetch.google_search_links (W := stub_web) "rome museums" 1 = inr links
          /\ links <> []
          /\ ((1 <= 1)%Z ->
              links = match firstn (Z.to_nat 1) (filter (contains "http") hrefs) with
                      | [] => no_results
                      | found => found
                      end)
          /\ ((1 <= 0)%Z ->
              links = match hrefs with
                      | href :: _ => if contains "http" href then [href] else no_results
                      | [] => no_results
                      end)).
Proof.
  apply (search_links_are_bounded (W := stub_web) "rome museums" 1 result_page).
  reflexivity.
Defined.

(** X16: [Fetch.fetch_url], once the request is answered, depends on the
    status, the content type and [force_raw] only.  A status of 400 or
    more raises an InternalError that names the URL and the status, and no
    content is returned.  Below 400 the page is returned as it is, behind
    a note that names its content type, when [force_raw] is set or
    "text/html" does not occur in the content type; otherwise the result
    is what [extract_content_from_html] makes of the page, with an empty
    note. *)
Theorem fetch_url_outcomes {W : Http.Fetch.Web} :
  forall (url user_agent : string) (force_raw : bool) (response : Http.Fetch.Response),
    Http.Fetch.client_get (page_request url user_agent) = Http.Fetch.Answered response ->
    ((400 <= Http.Fetch.status_code response)%Z ->
     Http.Fetch.fetch_url url user_agent force_raw
     = inl (McpError INTERNAL_ERROR
              ("Failed to fetch " ++ url ++ " - status code "
                 ++ Z_to_string (Http.Fetch.status_code response))))
    /\ ((Http.Fetch.status_code response < 400)%Z ->
        (force_raw = true \/ contains "text/html" (content_type_of response) = false ->
         Http.Fetch.fetch_url url user_agent force_raw
         = inr (Http.Fetch.text response, raw_note (content_type_of response)))
        /\ (force_raw = false ->
            contains "text/html" (content_type_of response) = true ->
            Http.Fetch.fetch_url url user_agent force_raw
            = content <~ Http.Fetch.extract_content_from_html (Http.Fetch.text response) ;;
              ok (content, ""))).
Proof.
  intros url user_agent force_raw response Reply. unfold Http.Fetch.fetch_url.
  fold (page_request url user_agent). rewrite Reply. cbv zeta.
  fold (content_type_of response). split.
  - intros Status. apply Z.leb_le in Status. now rewrite Status.
  - intros Status. apply Z.leb_gt in Status. rewrite Status. split.
    + intros [-> | Plain]; [now rewrite andb_false_r | now rewrite Plain].
    + intros -> Html. now rewrite Html.
Qed.

Lemma fetch_url_outcomes_witness :
  ((400 <= Http.Fetch.status_code result_page)%Z ->
   Http.Fetch.fetch_url (W := stub_web) "https://example.org/" Http.Fetch.USER_AGENT true
   = inl (McpError INTERNAL_ERROR
            ("Failed to fetch " ++ "https://example.org/" ++ " - status code "
               ++ Z_to_string (Http.Fetch.status_code result_page))))
  /\ ((Http.Fetch.status_code result_page < 400)%Z ->
      (true = true \/ contains "text/html" (content_type_of result_page) = false ->
       Http.Fetch.fetch_url (W := stub_web) "https://example.org/" Http.Fetch.USER_AGENT true
       = inr (Http.Fetch.text result_page, raw_note (content_type_of result_page)))
      /\ (true = false ->
          contains "text/html" (content_type_of result_page) = true ->
          Http.Fetch.fetch_url (W := stub_web) "https://example.org/" Http.Fetch.USER_AGENT
            true
          = content <~ Http.Fetch.extract_content_from_html (W := stub_web)
                         (Http.Fetch.text result_page) ;;
            ok (content, ""))).
Proof.
  apply (fetch_url_outcomes (W := stub_web) "https://example.org/" Http.Fetch.USER_AGENT true
           result_page).
  reflexivity.
Defined.

(** ** Keeping the server awake *)

(** X17: [send_ping] of keep_alive.py returns True exactly for an answer
    with status 200, and every call adds one to exactly one of
    [success_count] and [error_count].  [ping_count] counts only the pings
    that were answered: a timeout, a connection error or another exception
    is counted as an error but not as a ping.  So the counters always
    agree in that [success_count <= ping_count <= success_count +
    error_count], from [__init__] on. *)
Theorem ping_counters_agree {R : Runtime} :
  forall (self : KeepAlive.MCPKeepAlive) (posted : KeepAlive.Reply),
    handled posted = true ->
    counters_agree self ->
    let after := snd (fst (KeepAlive.send_ping self posted)) in
    counters_agree KeepAlive.init
    /\ fst (fst (KeepAlive.send_ping self posted)) = inr (alive posted)
    /\ KeepAlive.ping_count after
       = (KeepAlive.ping_count self + if answered posted then 1 else 0)%Z
    /\ KeepAlive.success_count after
       = (KeepAlive.success_count self + if alive posted then 1 else 0)%Z
    /\ KeepAlive.error_count after
       = (KeepAlive.error_count self + if alive posted then 0 else 1)%Z
    /\ counters_agree after.
Proof.
  intros self posted Handled. unfold KeepAlive.send_ping, counters_agree.
  destruct posted as [status_code text content_type | | | e]; cbn in Handled |- *;
    [destruct (status_code =? 200)%Z | | | rewrite Handled]; cbn; repeat split; lia.
Qed.

Lemma ping_counters_agree_witness :
  let after := snd (fst (KeepAlive.send_ping (R := Reference.runtime) KeepAlive.init
                           KeepAlive.TimeoutException)) in
  counters_agree KeepAlive.init
  /\ fst (fst (KeepAlive.send_ping (R := Reference.runtime) KeepAlive.init
                 KeepAlive.TimeoutException))
     = inr (alive KeepAlive.TimeoutException)
  /\ KeepAlive.ping_count after
     = (KeepAlive.ping_count KeepAlive.init
        + if answered KeepAlive.TimeoutException then 1 else 0)%Z
  /\ KeepAlive.success_count after
     = (KeepAlive.success_count KeepAlive.init
        + if alive KeepAlive.TimeoutException then 1 else 0)%Z
  /\ KeepAlive.error_count after
     = (KeepAlive.error_count KeepAlive.init
        + if alive KeepAlive.TimeoutException then 0 else 1)%Z
  /\ counters_agree after.
Proof.
  apply (ping_counters_agree (R := Reference.runtime) KeepAlive.init
           KeepAlive.TimeoutException).
  - reflexivity.
  - unfold counters_agree. cbn. lia.
Defined.

(** ** Default values *)









(** ** What a trip plan shows *)

Section Brief.
Context {R : Runtime}.

Lemma lookup_with_field (key : string) (f : value -> value) (record : list (string * value))
    (k : string) :
  lookup k (with_field key f record)
  = if String.eqb k key then option_map f (lookup key record) else lookup k record.
Proof.
  induction record as [ | [k' v] rest IH]; cbn; [now destruct (String.eqb k key) | ].
  destruct (String.eqb k' key) eqn:Here; cbn.
  - apply String.eqb_eq in Here. subst k'.
    destruct (String.eqb k key) eqn:Same.
    + apply String.eqb_eq in Same. subst k. now rewrite String.eqb_refl.
    + rewrite String.eqb_sym, Same. reflexivity.
  - rewrite IH. destruct (String.eqb k key) eqn:Same.
    + apply String.eqb_eq in Same. subst k. now rewrite Here.
    + reflexivity.
Qed.

Lemma field_with_field (key : string) (f : value -> value) (record : list (string * value))
    (default : value) :
  f default = default ->
  field (with_field key f record) key default = f (field record key default).
Proof.
  intros Fixed. unfold field. rewrite lookup_with_field, String.eqb_refl.
  now destruct (lookup key record).
Qed.

Lemma field_with_other_field (key : string) (f : value -> value)
    (record : list (string * value)) (k : string) (default : value) :
  String.eqb k key = false ->
  field (with_field key f record) k default = field record k default.
Proof. intros Other. unfold field. now rewrite lookup_with_field, Other. Qed.

Lemma slice_first_items (n : nat) (v : value) :
  slice (first_items n v) (VInt (Z.of_nat n)) = slice v (VInt (Z.of_nat n)).
Proof.
  destruct v; try reflexivity. cbn [first_items slice].
  rewrite !slice_to_first by lia. rewrite Nat2Z.id, firstn_firstn. do 3 f_equal. lia.
Qed.

Lemma slice_first_three (v : value) : slice (first_items 3 v) (VInt 3) = slice v (VInt 3).
Proof. exact (slice_first_items 3 v). Qed.

Lemma slice_first_five (v : value) : slice (first_items 5 v) (VInt 5) = slice v (VInt 5).
Proof. exact (slice_first_items 5 v). Qed.

Lemma for_each_map {A S : Type} (g : A -> A) (body : S -> A -> Res S) (xs : list A) (s : S) :
  (forall s x, body s (g x) = body s x) ->
  for_each (map g xs) body s = for_each xs body s.
Proof.
  intros Same. revert s. induction xs as [ | x xs IH]; intros s; cbn; [reflexivity | ].
  rewrite Same. destruct (body s x); cbn; [reflexivity | apply IH].
Qed.

Ltac fields_in_brief :=
  repeat first [ rewrite field_with_field by reflexivity
               | rewrite field_with_other_field by reflexivity ].

Lemma itinerary_day_in_brief (response : string) (day : value) :
  Http.itinerary_day response (day_in_brief day) = Http.itinerary_day response day.
Proof.
  destruct day; try reflexivity. unfold Http.itinerary_day, day_in_brief. cbn [in_field].
  rewrite !get_field. fields_in_brief. cbn [res_bind]. now rewrite slice_first_three.
Qed.

Lemma itinerary_in_brief_shown (itinerary : value) (started response : string) :
  (if truthy (itinerary_in_brief itinerary) then
     days <~ slice (itinerary_in_brief itinerary) (VInt 5) ;;
     days <~ iterate days ;;
     for_each days Http.itinerary_day started
   else ok response)
  = (if truthy itinerary then
       days <~ slice itinerary (VInt 5) ;;
       days <~ iterate days ;;
       for_each days Http.itinerary_day started
     else ok response).
Proof.
  destruct itinerary as [ | | | | | days | ]; try reflexivity.
  destruct days as [ | day days]; [reflexivity | ].
  unfold itinerary_in_brief. cbn [truthy firstn map].
  unfold slice. rewrite !slice_to_first by lia. change (Z.to_nat 5) with 5%nat.
  cbn [res_bind ok iterate].
  rewrite <- (map_cons day_in_brief), <- (firstn_cons 4 day days) at 1.
  rewrite <- firstn_map, firstn_firstn. change (Nat.min 5 5) with 5%nat.
  rewrite firstn_map. apply for_each_map. intros s x. apply itinerary_day_in_brief.
Qed.

Lemma trip_plan_in_brief (origin destination start_date end_date adults result : value) :
  Http.trip_plan origin destination start_date end_date adults (in_brief result)
  = Http.trip_plan origin destination start_date end_date adults result.
Proof.
  destruct result as [ | | | | | | items]; try reflexivity.
  unfold in_brief. cbn [in_field]. unfold Http.trip_plan. cbv zeta.
  rewrite !get_field. unfold subscript at 1. rewrite !lookup_with_field.
  cbn [String.eqb Ascii.eqb Bool.eqb]. fold (subscript (VDict items) "estimated_cost").
  fields_in_brief. cbn [res_bind].
  destruct (field items "trip_data" (VDict [])) as [ | | | | | | trip_data];
    try (destruct (if truthy _ then _ else _); reflexivity).
  cbn [trip_data_in_brief in_field]. rewrite !get_field. fields_in_brief. cbn [res_bind].
  rewrite !slice_first_three, !slice_first_five.
  repeat match goal with
    | |- res_bind ?x _ = res_bind ?x _ => destruct x; [reflexivity | ]; cbn [res_bind]
    end.
  now rewrite itinerary_in_brief_shown.
Qed.

End Brief.

(** X19: [plan_trip] shows at most three flights, three hotels, five
    restaurants, three events and five days of the itinerary with three
    activities each.  What the provider's answer holds beyond these has
    no influence on the result: the answer cut down to them gives the
    same result, a Success or a Failure, as the whole answer. *)
Theorem trip_plan_shows_the_answer_in_brief {R : Runtime} :
  forall (arguments a : Arguments) (c : ProviderCall) (env brief : Env) (result : value),
    bind_arguments Http.plan_trip_tool arguments = inr a ->
    plan Http_plan_trip a = inr [c] ->
    respond env c = inr result ->
    respond brief c = inr (in_brief result) ->
    fst (invoke HttpServer "plan_trip" arguments brief)
    = fst (invoke HttpServer "plan_trip" arguments env).
Proof.
  intros arguments a c env brief result B P Answer Brief.
  rewrite !(invoke_bound HttpServer "plan_trip" Http.plan_trip_tool arguments a _ eq_refl B).
  cbn [fst t_handler Http.plan_trip_tool fastmcp_tool].
  cbn in P. apply ok_injective in P. injection P as <-.
  open_handler. unfold call in Answer, Brief. rewrite Answer, Brief.
  now rewrite trip_plan_in_brief.
Qed.

Lemma trip_plan_shows_the_answer_in_brief_witness :
  fst (invoke (R := Reference.runtime) HttpServer "plan_trip" paris_request
         (answering (in_brief paris_answer)))
  = fst (invoke (R := Reference.runtime) HttpServer "plan_trip" paris_request
           (answering paris_answer)).
Proof.
  apply (trip_plan_shows_the_answer_in_brief (R := Reference.runtime) paris_request
           paris_bound paris_search (answering paris_answer)
           (answering (in_brief paris_answer)) paris_answer);
    reflexivity.
Defined.

